(** * Coldstar live wallet: session synchroniser and guarded send flow

    A shallow embedding of the session logic of [tui_wallet.py]
    (ColdstarLiveWallet and its panels) and of [token_fetcher.py]
    (TokenFetcher), together with the properties of the design document
    that can be stated over them.

    Conventions of the embedding.
    - A Python [dict] carrying a ledger entry is a [gmap string value];
      a missing key is a missing binding.
    - Python floats that hold amounts (balances, fees, deltas) are
      idealised as rationals [Q]: [x / 1_000_000_000] on an integer [x]
      is the fraction [x # 1000000000], comparisons are the exact ones.
      Rounding of binary floating point is not modelled.
    - The collaborators that are not part of these files (RPC client,
      USB manager, wallet manager, secure signer) appear as records of
      responses: every call is answered by a field of the record.
    - A handler is a function from the state of the application to its
      new state and the work it starts; a background worker runs to its
      end before the next event is handled, so interleavings of workers
      are not modelled. *)

From Stdlib Require Import QArith.
From Stdlib Require Import Sorting.Sorted Sorting.Permutation.
From stdpp Require Import gmap strings list fin_maps.

Open Scope Z_scope.

(** ** Values stored in the dictionaries *)

#[global] Instance Q_eq_dec : EqDecision Q.
Proof. solve_decision. Defined.

Inductive value :=
| VNone
| VStr (s : string)
| VInt (z : Z)
| VNum (q : Q).

#[global] Instance value_eq_dec : EqDecision value.
Proof. solve_decision. Defined.

(** What a call to a collaborator can do: return a truthy value, return a
    falsy one ([None], an empty container), or raise. *)
Inductive outcome (A : Type) :=
| Returned (a : A)
| Falsy
| Raised (e : string).
Arguments Returned {A} a.
Arguments Falsy {A}.
Arguments Raised {A} e.

(** A raw or enriched transaction entry, as returned by the RPC layer and
    as stored in [TransactionHistoryPanel.transactions]. *)
Abbreviation tx_entry := (gmap string value).

(** [tx.get("signature")]: the stored value, [None] when the key is
    missing. *)
Definition get_signature (tx : tx_entry) : value :=
  default VNone (tx !! "signature").

(** 1 SOL = 1_000_000_000 lamports. *)
Definition LAMPORTS_PER_SOL : positive := 1000000000.

(** [x / 1_000_000_000] for an integer number of lamports [x]. *)
Definition lamports_to_sol (x : Z) : Q := x # LAMPORTS_PER_SOL.

(** ** Transaction details, as read by [_enrich_transactions]

    [account_keys] is the list
    [[a.get("pubkey", "") for a in msg.get("accountKeys", [])]],
    [preBalances] and [postBalances] are [meta.get(..., [])] and [fee] is
    [meta.get("fee", 0)]. *)
Record tx_detail := {
  account_keys : list string;
  preBalances : list Z;
  postBalances : list Z;
  fee : Z
}.


(** [account_keys.index(pubkey)], [None] when [pubkey not in account_keys].
    The key looked for is [self.current_public_key], which may be [None]. *)
Fixpoint index (x : option string) (l : list string) : option nat :=
  match l with
  | [] => None
  | y :: l' => if decide (Some y = x) then Some 0%nat else S <$> index x l'
  end.

(** The body of [if detail: ...] in [_enrich_transactions]. *)
Definition enrich_with_detail (pubkey : option string) (d : tx_detail)
    (entry : tx_entry) : tx_entry :=
  let pre := preBalances d in
  let post := postBalances d in
  let entry :=
    match index pubkey (account_keys d) with
    | Some idx =>
        if (idx <? length pre)%nat && (idx <? length post)%nat then
          let delta_lamports := nth idx post 0 - nth idx pre 0 in
          if (idx =? 0)%nat && (delta_lamports <? 0) then
            let send_amount := lamports_to_sol (- (delta_lamports + fee d)) in
            <["direction" := VStr "sent"]>
              (<["sol_delta" := VNum (- send_amount)]> entry)
          else if 0 <? delta_lamports then
            let recv_amount := lamports_to_sol delta_lamports in
            <["direction" := VStr "received"]>
              (<["sol_delta" := VNum recv_amount]> entry)
          else
            <["direction" := VStr "other"]>
              (<["sol_delta" := VNum (lamports_to_sol delta_lamports)]> entry)
        else entry
    | None => entry
    end in
  <["fee_sol" := VNum (lamports_to_sol (fee d))]> entry.

(** One iteration of the loop of [_enrich_transactions]: [entry = dict(tx)],
    then the [try] block; a missing ["signature"] key ([KeyError]), a
    raised exception and a falsy detail all leave the copy as it is. *)
Definition enrich_entry (get_transaction_details : value → outcome tx_detail)
    (pubkey : option string) (tx : tx_entry) : tx_entry :=
  let entry := tx in
  match tx !! "signature" with
  | None => entry
  | Some sig =>
      match get_transaction_details sig with
      | Returned detail => enrich_with_detail pubkey detail entry
      | Falsy => entry
      | Raised _ => entry
      end
  end.

(** [ColdstarLiveWallet._enrich_transactions]: the loop appends one entry
    per input transaction to [enriched]. *)
Definition _enrich_transactions (get_transaction_details : value → outcome tx_detail)
    (txs : list tx_entry) (pubkey : option string) : list tx_entry :=
  fold_left
    (fun enriched tx => enriched ++ [enrich_entry get_transaction_details pubkey tx])
    txs [].

(** ** Token balances ([token_fetcher.py]) *)

(** A row of the table [KNOWN_TOKENS]. *)
Record known_token := {
  kt_mint : string;
  kt_decimals : Z;
  kt_symbol : string;
  kt_icon : string
}.

(** The table [KNOWN_TOKENS], in the order of the dictionary literal. *)
Definition KNOWN_TOKENS : list (string * known_token) := [
  ("USDC",
   {| kt_mint := "EPjFWdd5AufqSSqeM2qN1xzybapC8G4wEGGkZwyTDt1v";
      kt_decimals := 6; kt_symbol := "USDC"; kt_icon := "🔵" |});
  ("USDC_DEVNET",
   {| kt_mint := "Gh9ZwEmdLJ8DscKNTkTqPbNwLNNBjuSzaG9Vp2KGtKJr";
      kt_decimals := 6; kt_symbol := "USDC"; kt_icon := "🔵" |});
  ("USDT",
   {| kt_mint := "Es9vMFrzaCERmJfrF4H2FYD4KCoNkY11McCe8BenwNYB";
      kt_decimals := 6; kt_symbol := "USDT"; kt_icon := "🟢" |});
  ("RAY",
   {| kt_mint := "4k3Dyjzvzp8eMZWUXbBCjEvwSkkk59S5iCNLY3QrkX6R";
      kt_decimals := 6; kt_symbol := "RAY"; kt_icon := "🟡" |});
  ("BONK",
   {| kt_mint := "DezXAZ8z7PnrnRJjz3wXBoRgixCa6xjnB7YaB1pPB263";
      kt_decimals := 5; kt_symbol := "BONK"; kt_icon := "🐶" |});
  ("JUP",
   {| kt_mint := "JUPyiwrYJFskUPiHa7hkeR8VUtAeFoSYbKedZNsDvCN";
      kt_decimals := 6; kt_symbol := "JUP"; kt_icon := "🪐" |})
].

(** The field ["uiAmount"] of ["tokenAmount"]: missing, JSON [null], or a
    number. *)
Inductive ui_amount :=
| UiAbsent
| UiNull
| UiNumber (q : Q).

(** A token account of the [jsonParsed] answer of
    [getTokenAccountsByOwner], reduced to what [parse_token_balance] reads
    under [account.data.parsed.info]: ["mint"], ["tokenAmount"]["uiAmount"]
    and ["tokenAmount"]["decimals"]; a missing key is [None] / [UiAbsent]. *)
Record token_account := {
  ta_mint : option string;
  ta_uiAmount : ui_amount;
  ta_decimals : option Z
}.

(** The dictionary built by [parse_token_balance]. *)
Record token_balance := {
  mint : option string;
  symbol : string;
  icon : string;
  balance : Q;
  decimals : Z;
  is_known : bool
}.

(** The loop over [KNOWN_TOKENS.items()]: the first row whose mint is the
    given one. *)
Fixpoint find_token_info (table : list (string * known_token))
    (m : option string) : option known_token :=
  match table with
  | [] => None
  | (_, data) :: rest =>
      if decide (Some (kt_mint data) = m) then Some data
      else find_token_info rest m
  end.

(** [TokenFetcher.parse_token_balance].  On accounts of this shape no
    attribute access fails, so the [except] branch (which returns [None])
    is not taken and the answer is always a dictionary. *)
Definition parse_token_balance (token_account : token_account)
    : option token_balance :=
  let mint := ta_mint token_account in
  let ui_amount :=
    match ta_uiAmount token_account with
    | UiAbsent => Some 0%Q
    | UiNull => None
    | UiNumber q => Some q
    end in
  let decimals := default 0 (ta_decimals token_account) in
  let token_info := find_token_info KNOWN_TOKENS mint in
  Some {|
    mint := mint;
    symbol := match token_info with Some i => kt_symbol i | None => "Unknown" end;
    icon := match token_info with Some i => kt_icon i | None => "🪙" end;
    balance := match ui_amount with Some q => q | None => 0%Q end;
    decimals := decimals;
    is_known := match token_info with Some _ => true | None => false end
  |}.

(** The sort key [(not x["is_known"], -x["balance"])] and the order of
    Python tuples on it: [False < True] on the first component, then the
    numbers. *)
Definition sort_key (x : token_balance) : bool * Q :=
  (negb (is_known x), (- balance x)%Q).

Definition key_leb (a b : bool * Q) : bool :=
  match fst a, fst b with
  | false, true => true
  | true, false => false
  | _, _ => Qle_bool (snd a) (snd b)
  end.

Definition token_leb (x y : token_balance) : bool :=
  key_leb (sort_key x) (sort_key y).

(** [list.sort(key=...)] is a stable sort; it is modelled by the stable
    insertion sort: an element is placed before the first element that is
    not smaller than it, and elements are inserted from the right. *)
Fixpoint insert_sorted {A} (leb : A → A → bool) (x : A) (l : list A) : list A :=
  match l with
  | [] => [x]
  | y :: l' => if leb x y then x :: l else y :: insert_sorted leb x l'
  end.

Definition stable_sort {A} (leb : A → A → bool) (l : list A) : list A :=
  foldr (insert_sorted leb) [] l.

(** [TokenFetcher.get_token_accounts]: the list under
    [data["result"]["value"]] of the answer to [getTokenAccountsByOwner];
    the empty list when the answer lacks it or the request raises (the
    answer is then [None] here). *)
Definition get_token_accounts (post : string → option (list token_account))
    (wallet_address : string) : list token_account :=
  match post wallet_address with
  | Some accounts => accounts
  | None => []
  end.

(** [TokenFetcher.get_all_token_balances]. *)
Definition get_all_token_balances (post : string → option (list token_account))
    (wallet_address : string) : list token_balance :=
  let accounts := get_token_accounts post wallet_address in
  let balances :=
    fold_left
      (fun balances account =>
         match parse_token_balance account with
         | Some parsed => balances ++ [parsed]
         | None => balances
         end)
      accounts [] in
  stable_sort token_leb balances.

(** ** The widgets and the application object ([tui_wallet.py])

    Each record holds the reactive attributes of one widget that the
    session logic reads or writes; rendering is not modelled. *)

(** A device dictionary of [usb_manager.detect_usb_devices()]. *)
Record usb_device := {
  dev_device : option string;
  dev_model : option string;
  dev_size : option string;
  dev_mountpoint : option string
}.

Record LiveStatusBar := {
  wallet_name : string;
  mode : string;
  network_status : string
}.

Record LiveInfoBar := {
  ib_balance : Q;
  ib_public_key : string
}.

Record LivePortfolioPanel := {
  pp_sol_balance : Q;
  pp_tokens : list token_balance;
  pp_public_key : string;
  pp_selected_index : Z
}.

Record TokenDetailsPanel := {
  td_selected_token : option token_balance;
  td_sol_balance : Q
}.

Record TokenSecurityPanel := {
  ts_selected_token : option token_balance
}.

Record TransactionHistoryPanel := {
  transactions : list tx_entry;
  page_size : Z;
  th_selected_index : Z
}.

(** The text of the review box of the send panel: the hint, the review
    line [f"{amount:.6f} SOL  →  {to_short}"], or a literal message. *)
Inductive review_text :=
| ReviewHint
| ReviewLine (amount : Q) (to : string)
| ReviewMsg (s : string).

Record LiveSendPanel := {
  sp_current_balance : Q;
  _confirming : bool;
  confirm_container_display : bool;
  to_address : string;
  amount_input : string;
  wallet_password : string;
  review_box : review_text
}.

Record DevicePanel := {
  dp_devices : list usb_device;
  dp_selected_index : option nat
}.

(** Attributes of the [ColdstarLiveWallet] object itself;
    [usb_mount_point] is [self.usb_manager.mount_point]. *)
Record app_fields := {
  current_public_key : option string;
  current_balance : Q;
  current_tokens : list token_balance;
  did_unmount : bool;
  detected_devices : list usb_device;
  selected_device_index : option nat;
  _last_mount_attempt : Q;
  usb_mount_point : option string
}.

Record wallet := {
  app_attrs : app_fields;
  status_bar : LiveStatusBar;
  info_bar : LiveInfoBar;
  portfolio : LivePortfolioPanel;
  token_details : TokenDetailsPanel;
  token_security : TokenSecurityPanel;
  history : TransactionHistoryPanel;
  send_panel : LiveSendPanel;
  device_panel : DevicePanel
}.

(** The state built by [__init__] and the class-level defaults of the
    reactive attributes. *)
Definition initial_wallet : wallet := {|
  app_attrs := {| current_public_key := None; current_balance := 0%Q;
            current_tokens := []; did_unmount := false;
            detected_devices := []; selected_device_index := None;
            _last_mount_attempt := 0%Q; usb_mount_point := None |};
  status_bar := {| wallet_name := "No USB"; mode := "OFFLINE";
                   network_status := "Disconnected" |};
  info_bar := {| ib_balance := 0%Q; ib_public_key := "" |};
  portfolio := {| pp_sol_balance := 0%Q; pp_tokens := [];
                  pp_public_key := ""; pp_selected_index := 0 |};
  token_details := {| td_selected_token := None; td_sol_balance := 0%Q |};
  token_security := {| ts_selected_token := None |};
  history := {| transactions := []; page_size := 5; th_selected_index := 0 |};
  send_panel := {| sp_current_balance := 0%Q; _confirming := false;
                   confirm_container_display := false; to_address := "";
                   amount_input := ""; wallet_password := "";
                   review_box := ReviewHint |};
  device_panel := {| dp_devices := []; dp_selected_index := None |}
|}.

(** *** Attribute assignment *)

Definition set_app_attrs (a : app_fields) (w : wallet) : wallet :=
  {| app_attrs := a; status_bar := status_bar w; info_bar := info_bar w;
     portfolio := portfolio w; token_details := token_details w;
     token_security := token_security w; history := history w;
     send_panel := send_panel w; device_panel := device_panel w |}.

Definition set_status_bar (b : LiveStatusBar) (w : wallet) : wallet :=
  {| app_attrs := app_attrs w; status_bar := b; info_bar := info_bar w;
     portfolio := portfolio w; token_details := token_details w;
     token_security := token_security w; history := history w;
     send_panel := send_panel w; device_panel := device_panel w |}.

Definition set_info_bar (b : LiveInfoBar) (w : wallet) : wallet :=
  {| app_attrs := app_attrs w; status_bar := status_bar w; info_bar := b;
     portfolio := portfolio w; token_details := token_details w;
     token_security := token_security w; history := history w;
     send_panel := send_panel w; device_panel := device_panel w |}.

Definition set_portfolio (p : LivePortfolioPanel) (w : wallet) : wallet :=
  {| app_attrs := app_attrs w; status_bar := status_bar w; info_bar := info_bar w;
     portfolio := p; token_details := token_details w;
     token_security := token_security w; history := history w;
     send_panel := send_panel w; device_panel := device_panel w |}.

Definition set_token_details (p : TokenDetailsPanel) (w : wallet) : wallet :=
  {| app_attrs := app_attrs w; status_bar := status_bar w; info_bar := info_bar w;
     portfolio := portfolio w; token_details := p;
     token_security := token_security w; history := history w;
     send_panel := send_panel w; device_panel := device_panel w |}.

Definition set_token_security (p : TokenSecurityPanel) (w : wallet) : wallet :=
  {| app_attrs := app_attrs w; status_bar := status_bar w; info_bar := info_bar w;
     portfolio := portfolio w; token_details := token_details w;
     token_security := p; history := history w;
     send_panel := send_panel w; device_panel := device_panel w |}.

Definition set_history (p : TransactionHistoryPanel) (w : wallet) : wallet :=
  {| app_attrs := app_attrs w; status_bar := status_bar w; info_bar := info_bar w;
     portfolio := portfolio w; token_details := token_details w;
     token_security := token_security w; history := p;
     send_panel := send_panel w; device_panel := device_panel w |}.

Definition set_send_panel (p : LiveSendPanel) (w : wallet) : wallet :=
  {| app_attrs := app_attrs w; status_bar := status_bar w; info_bar := info_bar w;
     portfolio := portfolio w; token_details := token_details w;
     token_security := token_security w; history := history w;
     send_panel := p; device_panel := device_panel w |}.

Definition set_device_panel (p : DevicePanel) (w : wallet) : wallet :=
  {| app_attrs := app_attrs w; status_bar := status_bar w; info_bar := info_bar w;
     portfolio := portfolio w; token_details := token_details w;
     token_security := token_security w; history := history w;
     send_panel := send_panel w; device_panel := p |}.

Definition set_current_public_key (k : option string) (a : app_fields) : app_fields :=
  {| current_public_key := k; current_balance := current_balance a;
     current_tokens := current_tokens a; did_unmount := did_unmount a;
     detected_devices := detected_devices a;
     selected_device_index := selected_device_index a;
     _last_mount_attempt := _last_mount_attempt a;
     usb_mount_point := usb_mount_point a |}.

Definition set_current_balance (b : Q) (a : app_fields) : app_fields :=
  {| current_public_key := current_public_key a; current_balance := b;
     current_tokens := current_tokens a; did_unmount := did_unmount a;
     detected_devices := detected_devices a;
     selected_device_index := selected_device_index a;
     _last_mount_attempt := _last_mount_attempt a;
     usb_mount_point := usb_mount_point a |}.

Definition set_current_tokens (t : list token_balance) (a : app_fields) : app_fields :=
  {| current_public_key := current_public_key a;
     current_balance := current_balance a;
     current_tokens := t; did_unmount := did_unmount a;
     detected_devices := detected_devices a;
     selected_device_index := selected_device_index a;
     _last_mount_attempt := _last_mount_attempt a;
     usb_mount_point := usb_mount_point a |}.

Definition set_did_unmount (b : bool) (a : app_fields) : app_fields :=
  {| current_public_key := current_public_key a;
     current_balance := current_balance a;
     current_tokens := current_tokens a; did_unmount := b;
     detected_devices := detected_devices a;
     selected_device_index := selected_device_index a;
     _last_mount_attempt := _last_mount_attempt a;
     usb_mount_point := usb_mount_point a |}.

Definition set_detected_devices (d : list usb_device) (a : app_fields) : app_fields :=
  {| current_public_key := current_public_key a;
     current_balance := current_balance a;
     current_tokens := current_tokens a; did_unmount := did_unmount a;
     detected_devices := d;
     selected_device_index := selected_device_index a;
     _last_mount_attempt := _last_mount_attempt a;
     usb_mount_point := usb_mount_point a |}.

Definition set_selected_device_index (i : option nat) (a : app_fields) : app_fields :=
  {| current_public_key := current_public_key a;
     current_balance := current_balance a;
     current_tokens := current_tokens a; did_unmount := did_unmount a;
     detected_devices := detected_devices a;
     selected_device_index := i;
     _last_mount_attempt := _last_mount_attempt a;
     usb_mount_point := usb_mount_point a |}.

Definition set_last_mount_attempt (t : Q) (a : app_fields) : app_fields :=
  {| current_public_key := current_public_key a;
     current_balance := current_balance a;
     current_tokens := current_tokens a; did_unmount := did_unmount a;
     detected_devices := detected_devices a;
     selected_device_index := selected_device_index a;
     _last_mount_attempt := t;
     usb_mount_point := usb_mount_point a |}.

Definition set_usb_mount_point (m : option string) (a : app_fields) : app_fields :=
  {| current_public_key := current_public_key a;
     current_balance := current_balance a;
     current_tokens := current_tokens a; did_unmount := did_unmount a;
     detected_devices := detected_devices a;
     selected_device_index := selected_device_index a;
     _last_mount_attempt := _last_mount_attempt a;
     usb_mount_point := m |}.

(** Python truthiness of an optional string ([None] and [""] are falsy). *)
Definition truthy (o : option string) : bool :=
  match o with
  | Some s => negb (String.eqb s "")
  | None => false
  end.

(** Strict comparison of two amounts, [x < y]. *)
Definition Qlt_bool (x y : Q) : bool := negb (Qle_bool y x).

(** Work handed to a background worker or to the framework by a handler. *)
Inductive effect :=
| RunFetchWalletData
| RunFetchMoreTxs (before_sig : value) (existing_txs : list tx_entry)
| RunDoSend (to_addr : string) (amount : Q) (password : string)
| Notify (msg : string)
| ExitApp.

(** Python builtins used on the text of the input fields. *)
Record builtins := {
  strip : string → string;
  float : string → option Q
}.

(** ** Collaborators *)

(** The answers of [SolanaNetwork] during one operation.
    [getSignaturesForAddress pubkey limit before] is
    [_make_rpc_request("getSignaturesForAddress",
       [pubkey, {"limit": limit, "before": before}]).get("result", [])]. *)
Record SolanaNetwork := {
  is_connected : bool;
  get_balance : string → option Q;
  get_transaction_history : string → nat → list tx_entry;
  get_transaction_details : value → outcome tx_detail;
  getSignaturesForAddress : option string → nat → value → outcome (list tx_entry);
  get_latest_blockhash : outcome (string * Z);
  send_transaction : string → outcome string
}.

(** What one poll cycle meets outside the process: the network, the
    devices found by [usb_manager.detect_usb_devices()], the clock
    ([time.time()]), the answer of [usb_manager.mount_device], the file
    [<mount>/wallet/pubkey.txt] ([None] when it does not exist, else its
    stripped text) and the token-account RPC of [TokenFetcher]. *)
Record poll_env := {
  network : SolanaNetwork;
  detect_usb_devices : list usb_device;
  now : Q;
  mount_device : option string → option string;
  read_pubkey : string → option string;
  token_accounts_rpc : string → option (list token_account)
}.

(** ** Callbacks run on the UI thread *)

Definition _update_network_status (connected : bool) (w : wallet) : wallet :=
  let b := status_bar w in
  set_status_bar
    {| wallet_name := wallet_name b; mode := mode b;
       network_status := if connected then "Connected" else "Disconnected" |} w.

Definition _update_status_bar (label : string) (w : wallet) : wallet :=
  let b := status_bar w in
  set_status_bar
    {| wallet_name := label; mode := "READY";
       network_status := network_status b |} w.

Definition _set_mode (m : string) (w : wallet) : wallet :=
  let b := status_bar w in
  set_status_bar
    {| wallet_name := wallet_name b; mode := m;
       network_status := network_status b |} w.

(** [self.detected_devices = devices or []], then the device panel. *)
Definition _update_devices (devices : list usb_device) (w : wallet) : wallet :=
  let w := set_app_attrs (set_detected_devices devices (app_attrs w)) w in
  set_device_panel
    {| dp_devices := detected_devices (app_attrs w);
       dp_selected_index := selected_device_index (app_attrs w) |} w.

Definition _update_pubkey (pubkey : string) (w : wallet) : wallet :=
  let w := set_info_bar
             {| ib_balance := ib_balance (info_bar w); ib_public_key := pubkey |} w in
  let p := portfolio w in
  set_portfolio
    {| pp_sol_balance := pp_sol_balance p; pp_tokens := pp_tokens p;
       pp_public_key := pubkey; pp_selected_index := pp_selected_index p |} w.

(** [_update_balance]; the time of the last sync shown by the info bar is
    not modelled. *)
Definition _update_balance (balance : Q) (w : wallet) : wallet :=
  let w := set_info_bar
             {| ib_balance := balance; ib_public_key := ib_public_key (info_bar w) |} w in
  let p := portfolio w in
  let w := set_portfolio
             {| pp_sol_balance := balance; pp_tokens := pp_tokens p;
                pp_public_key := pp_public_key p;
                pp_selected_index := pp_selected_index p |} w in
  let s := send_panel w in
  let w := set_send_panel
             {| sp_current_balance := balance; _confirming := _confirming s;
                confirm_container_display := confirm_container_display s;
                to_address := to_address s; amount_input := amount_input s;
                wallet_password := wallet_password s;
                review_box := review_box s |} w in
  set_token_details
    {| td_selected_token := td_selected_token (token_details w);
       td_sol_balance := balance |} w.

(** [_apply_token_selection]: points the detail and security panels at the
    token the index designates. *)
Definition _apply_token_selection (index : Z) (w : wallet) : wallet :=
  if index <=? 0 then
    let w := set_token_details
               {| td_selected_token := None;
                  td_sol_balance := current_balance (app_attrs w) |} w in
    set_token_security {| ts_selected_token := None |} w
  else
    match current_tokens (app_attrs w) with
    | [] =>
        let w := set_token_details
                   {| td_selected_token := None;
                      td_sol_balance := td_sol_balance (token_details w) |} w in
        set_token_security {| ts_selected_token := None |} w
    | _ =>
        let index :=
          if Z.of_nat (length (current_tokens (app_attrs w))) <=? index - 1
          then 1 else index in
        match current_tokens (app_attrs w) !! Z.to_nat (index - 1) with
        | Some selected =>
            let w := set_token_details
                       {| td_selected_token := Some selected;
                          td_sol_balance := td_sol_balance (token_details w) |} w in
            set_token_security {| ts_selected_token := Some selected |} w
        | None => w
        end
    end.

Definition _update_tokens (tokens : list token_balance) (w : wallet) : wallet :=
  let p := portfolio w in
  let w := set_portfolio
             {| pp_sol_balance := pp_sol_balance p; pp_tokens := tokens;
                pp_public_key := pp_public_key p;
                pp_selected_index := pp_selected_index p |} w in
  _apply_token_selection (pp_selected_index (portfolio w)) w.

(** The token stage of the poll cycle: [self.current_tokens = tokens],
    then [_update_tokens(tokens)] on the UI thread. *)
Definition commit_tokens (tokens : list token_balance) (w : wallet) : wallet :=
  let w := set_app_attrs (set_current_tokens tokens (app_attrs w)) w in
  _update_tokens tokens w.

(** [TransactionHistoryPanel.watch_transactions]. *)
Definition watch_transactions (txs : list tx_entry)
    (h : TransactionHistoryPanel) : TransactionHistoryPanel :=
  let len := Z.of_nat (length txs) in
  {| transactions := transactions h;
     page_size := 5;
     th_selected_index :=
       if len <=? th_selected_index h then Z.max 0 (len - 1)
       else th_selected_index h |}.

(** [_update_txs]: assignment to the reactive attribute [transactions];
    the watcher runs when the assigned list differs from the held one. *)
Definition _update_txs (txs : list tx_entry) (w : wallet) : wallet :=
  let h := history w in
  if decide (transactions h = txs) then w
  else
    set_history
      (watch_transactions txs
         {| transactions := txs; page_size := page_size h;
            th_selected_index := th_selected_index h |}) w.

(** ** The poll cycle *)

(** Where a run of [_fetch_wallet_data] returned. *)
Inductive poll_halt :=
| HaltNoDevice
| HaltSelectUsb
| HaltNotMounted
| HaltNoKeyFile
| HaltDisconnected
| HaltNoBalance
| PollCompleted.

(** The device picked by the cycle and the new value of
    [self.selected_device_index], or [None] when a selection is needed. *)
Definition pick_device (devices : list usb_device) (selected : option nat)
    : option (usb_device * option nat) :=
  match devices with
  | [device] => Some (device, Some 0%nat)
  | _ =>
      match selected with
      | None => None
      | Some i =>
          if (length devices <=? i)%nat then None
          else (fun device => (device, selected)) <$> devices !! i
      end
  end.

(** [device.get('model', 'COLDSTAR').strip() or 'COLDSTAR']. *)
Definition wallet_label (py : builtins) (device : usb_device) : string :=
  let s := strip py (default "COLDSTAR" (dev_model device)) in
  if String.eqb s "" then "COLDSTAR" else s.

(** [ColdstarLiveWallet._fetch_wallet_data], with the callbacks handed to
    the UI thread applied in the order of the calls (each
    [call_from_thread] returns once its callback has run).  The second
    component tells where the run returned.  [_update_network_info] only
    writes the network panel and [usb_manager.select_device] only the USB
    manager's own selection; neither is part of the state modelled here. *)
Definition _fetch_wallet_data (py : builtins) (env : poll_env) (w : wallet)
    : wallet * poll_halt :=
  let connected := is_connected (network env) in
  let w := _update_network_status connected w in
  let devices := detect_usb_devices env in
  let w := _update_devices devices w in
  match devices with
  | [] => (_set_mode "OFFLINE" w, HaltNoDevice)
  | _ =>
    match pick_device devices (selected_device_index (app_attrs w)) with
    | None => (_set_mode "SELECT USB" w, HaltSelectUsb)
    | Some (device, selected) =>
      let w := set_app_attrs (set_selected_device_index selected (app_attrs w)) w in
      let mount_point := dev_mountpoint device in
      let label := wallet_label py device in
      let w :=
        if truthy mount_point then
          set_app_attrs (set_usb_mount_point mount_point (app_attrs w)) w
        else if Qlt_bool 5 (now env - _last_mount_attempt (app_attrs w)) then
          let w := set_app_attrs (set_last_mount_attempt (now env) (app_attrs w)) w in
          let mount_point := mount_device env (dev_device device) in
          if truthy mount_point then
            set_app_attrs (set_usb_mount_point mount_point (app_attrs w)) w
          else w
        else w in
      let w := _update_status_bar label w in
      match usb_mount_point (app_attrs w) with
      | Some mp =>
        if String.eqb mp "" then (w, HaltNotMounted) else
        match read_pubkey env mp with
        | None => (w, HaltNoKeyFile)
        | Some pubkey =>
          let w := set_app_attrs (set_current_public_key (Some pubkey) (app_attrs w)) w in
          let w := _update_pubkey pubkey w in
          if negb connected then (w, HaltDisconnected) else
          match get_balance (network env) pubkey with
          | None => (w, HaltNoBalance)
          | Some balance =>
            let w := set_app_attrs (set_current_balance balance (app_attrs w)) w in
            let w := _update_balance balance w in
            let tokens := get_all_token_balances (token_accounts_rpc env) pubkey in
            let w := commit_tokens tokens w in
            let txs := get_transaction_history (network env) pubkey 10 in
            match txs with
            | [] => (w, PollCompleted)
            | _ =>
              let enriched :=
                _enrich_transactions (get_transaction_details (network env))
                  txs (Some pubkey) in
              (_update_txs enriched w, PollCompleted)
            end
          end
        end
      | None => (w, HaltNotMounted)
      end
    end
  end.

(** [refresh_data]: the status bar shows the sync, then the worker runs. *)
Definition refresh_data (py : builtins) (env : poll_env) (w : wallet)
    : wallet * poll_halt :=
  _fetch_wallet_data py env (_set_mode "SYNCING..." w).

(** ** Token selection *)

(** [LivePortfolioPanel.action_select_prev]. *)
Definition LivePortfolioPanel_action_select_prev (p : LivePortfolioPanel)
    : LivePortfolioPanel :=
  if 0 <? pp_selected_index p then
    {| pp_sol_balance := pp_sol_balance p; pp_tokens := pp_tokens p;
       pp_public_key := pp_public_key p;
       pp_selected_index := pp_selected_index p - 1 |}
  else p.

(** [LivePortfolioPanel.action_select_next]. *)
Definition LivePortfolioPanel_action_select_next (p : LivePortfolioPanel)
    : LivePortfolioPanel :=
  let max_index := Z.of_nat (length (pp_tokens p)) in
  if pp_selected_index p <? max_index then
    {| pp_sol_balance := pp_sol_balance p; pp_tokens := pp_tokens p;
       pp_public_key := pp_public_key p;
       pp_selected_index := pp_selected_index p + 1 |}
  else p.

(** [on_live_portfolio_panel_token_selected]. *)
Definition on_live_portfolio_panel_token_selected (index : Z) (w : wallet) : wallet :=
  _apply_token_selection index w.

(** A key press on the portfolio panel: the action, then, when the index
    changed, [watch_selected_index] posts [TokenSelected(index)] and the
    application handles it. *)
Definition portfolio_key (action : LivePortfolioPanel → LivePortfolioPanel)
    (w : wallet) : wallet :=
  let p := action (portfolio w) in
  let changed := negb (pp_selected_index p =? pp_selected_index (portfolio w)) in
  let w := set_portfolio p w in
  if changed then on_live_portfolio_panel_token_selected (pp_selected_index p) w
  else w.

(** ** Transaction history and pagination *)

(** [TransactionHistoryPanel.action_select_prev]. *)
Definition TransactionHistoryPanel_action_select_prev (h : TransactionHistoryPanel)
    : TransactionHistoryPanel :=
  if 0 <? th_selected_index h then
    {| transactions := transactions h; page_size := page_size h;
       th_selected_index := th_selected_index h - 1 |}
  else h.

(** [TransactionHistoryPanel.action_select_next]. *)
Definition TransactionHistoryPanel_action_select_next (h : TransactionHistoryPanel)
    : TransactionHistoryPanel :=
  let len := Z.of_nat (length (transactions h)) in
  if th_selected_index h <? Z.max 0 (len - 1) then
    let selected_index := th_selected_index h + 1 in
    let page_size :=
      if (page_size h <=? selected_index) && (page_size h <? len)
      then page_size h + 5 else page_size h in
    {| transactions := transactions h; page_size := page_size;
       th_selected_index := selected_index |}
  else h.

(** A key press on the history panel: the action changes the panel and
    posts no message. *)
Definition history_key (action : TransactionHistoryPanel → TransactionHistoryPanel)
    (w : wallet) : wallet * option effect :=
  (set_history (action (history w)) w, None).

(** [TransactionHistoryPanel.on_button_pressed] on the button
    [btn-load-more]: the page grows and the message [LoadMore] is posted
    (the second component).  [refresh_history] displays the button only
    while [len(self.transactions) > self.page_size]. *)
Definition load_more_button_displayed (h : TransactionHistoryPanel) : bool :=
  match transactions h with
  | [] => false
  | _ => page_size h <? Z.of_nat (length (transactions h))
  end.

Definition TransactionHistoryPanel_on_button_pressed (h : TransactionHistoryPanel)
    : TransactionHistoryPanel * bool :=
  ({| transactions := transactions h; page_size := page_size h + 5;
      th_selected_index := th_selected_index h |}, true).

(** [on_transaction_history_panel_load_more]: the worker it starts, if
    any, with the cursor and the list it captured. *)
Definition on_transaction_history_panel_load_more (w : wallet) : option effect :=
  if negb (truthy (current_public_key (app_attrs w))) then None
  else
    let current_txs := transactions (history w) in
    match last current_txs with
    | None => None
    | Some oldest =>
        let last_sig := get_signature oldest in
        Some (RunFetchMoreTxs last_sig current_txs)
    end.

(** The press of the button as the application sees it. *)
Definition press_load_more (w : wallet) : wallet * option effect :=
  let '(h, posted) := TransactionHistoryPanel_on_button_pressed (history w) in
  let w := set_history h w in
  (w, if posted then on_transaction_history_panel_load_more w else None).

(** [_fetch_more_txs]. *)
Definition _fetch_more_txs (net : SolanaNetwork) (before_sig : value)
    (existing_txs : list tx_entry) (w : wallet) : wallet :=
  match getSignaturesForAddress net (current_public_key (app_attrs w)) 10 before_sig with
  | Returned new_txs =>
      match new_txs with
      | [] => w
      | _ =>
          let enriched :=
            _enrich_transactions (get_transaction_details net) new_txs
              (current_public_key (app_attrs w)) in
          let combined := existing_txs ++ enriched in
          _update_txs combined w
      end
  | Falsy => w
  | Raised _ => w
  end.

(** One [loadMore]: the press of the button followed by the run of the
    worker it started. *)
Definition load_more (net : SolanaNetwork) (w : wallet) : wallet :=
  match press_load_more w with
  | (w, Some (RunFetchMoreTxs before_sig existing_txs)) =>
      _fetch_more_txs net before_sig existing_txs w
  | (w, _) => w
  end.

(** Modelled from the spec: the RPC [getSignaturesForAddress] with a
    [before] cursor, which the network module (not part of these files)
    forwards to the node.  The ledger of the address is a list of entries,
    newest first; the call returns at most [limit] entries strictly older
    than the entry whose signature is the cursor (exclusive bound). *)
Fixpoint older_than (before : value) (ledger : list tx_entry) : list tx_entry :=
  match ledger with
  | [] => []
  | tx :: rest =>
      if decide (get_signature tx = before) then rest
      else older_than before rest
  end.

Definition ledger_signatures_before (ledger : list tx_entry)
    (pubkey : option string) (limit : nat) (before : value)
    : outcome (list tx_entry) :=
  Returned (take limit (older_than before ledger)).

(** ** Device selection and unmount *)

(** [on_device_panel_device_selected]: the index is recorded and a refresh
    is requested. *)
Definition on_device_panel_device_selected (index : nat) (w : wallet)
    : wallet * list effect :=
  (set_app_attrs (set_selected_device_index (Some index) (app_attrs w)) w,
   [RunFetchWalletData]).

(** [action_unmount]; [unmount_raises] tells whether
    [usb_manager.unmount_device()] raised.  The mount point kept by the USB
    manager is left to that collaborator and is not changed here. *)
Definition action_unmount (unmount_raises : bool) (w : wallet)
    : wallet * list effect :=
  if truthy (usb_mount_point (app_attrs w)) then
    if unmount_raises then (w, [Notify "Failed to unmount"])
    else
      let a := app_attrs w in
      let a := set_did_unmount true a in
      let a := set_current_public_key None a in
      let a := set_current_balance 0%Q a in
      let a := set_current_tokens [] a in
      (set_app_attrs a w, [Notify "Wallet unmounted"; ExitApp])
  else (w, [Notify "No wallet mounted"]).

(** ** The send flow *)

(** The fixed fee [0.000005] used by every check. *)
Definition fee_estimate : Q := 5 # 1000000.

(** The wallet manager, the transaction manager and the network as the
    send flow calls them; unsigned and signed transactions and the
    encrypted container are opaque texts. *)
Record send_env := {
  validate_address : string → bool;
  send_network : SolanaNetwork;
  create_transfer_transaction :
    option string → string → Q → string → outcome string;
  load_encrypted_container : string → string → outcome string;
  sign_transaction_secure : string → string → string → outcome string;
  b64encode : string → string
}.

Definition set_review (r : review_text) (s : LiveSendPanel) : LiveSendPanel :=
  {| sp_current_balance := sp_current_balance s; _confirming := _confirming s;
     confirm_container_display := confirm_container_display s;
     to_address := to_address s; amount_input := amount_input s;
     wallet_password := wallet_password s; review_box := r |}.

(** [LiveSendPanel._show_confirm_step]. *)
Definition _show_confirm_step (py : builtins) (validate : string → bool)
    (s : LiveSendPanel) : LiveSendPanel :=
  let to := strip py (to_address s) in
  let amount_str := strip py (amount_input s) in
  if String.eqb to "" || String.eqb amount_str "" then
    set_review (ReviewMsg "[red]Fill in address and amount first[/red]") s
  else if negb (validate to) then
    set_review (ReviewMsg "[red]Invalid recipient address[/red]") s
  else
    match float py amount_str with
    | None => set_review (ReviewMsg "[red]Invalid amount[/red]") s
    | Some amount =>
        if Qle_bool amount 0 then
          set_review (ReviewMsg "[red]Amount must be greater than 0[/red]") s
        else
          let fee := fee_estimate in
          if Qlt_bool (sp_current_balance s) (amount + fee) then
            set_review (ReviewMsg "[red]Insufficient balance (amount + fee)[/red]") s
          else
            {| sp_current_balance := sp_current_balance s;
               _confirming := true;
               confirm_container_display := true;
               to_address := to_address s; amount_input := amount_input s;
               wallet_password := wallet_password s;
               review_box := review_box s |}
    end.

(** [LiveSendPanel._hide_confirm_step]. *)
Definition _hide_confirm_step (s : LiveSendPanel) : LiveSendPanel :=
  {| sp_current_balance := sp_current_balance s;
     _confirming := false;
     confirm_container_display := false;
     to_address := to_address s; amount_input := amount_input s;
     wallet_password := "";
     review_box := review_box s |}.

(** [LiveSendPanel.update_review]. *)
Definition update_review (py : builtins) (s : LiveSendPanel) : LiveSendPanel :=
  let to := strip py (to_address s) in
  let amount_str := strip py (amount_input s) in
  let parsed := if String.eqb amount_str "" then Some 0%Q else float py amount_str in
  match parsed with
  | None => set_review (ReviewMsg "[red]Invalid amount[/red]") s
  | Some amount =>
      if negb (String.eqb to "") && Qlt_bool 0 amount
      then set_review (ReviewLine amount to) s
      else set_review ReviewHint s
  end.

(** Typing in one of the three inputs; [on_input_changed] recomputes the
    review line for the address and the amount. *)
Definition edit_to_address (py : builtins) (text : string) (s : LiveSendPanel)
    : LiveSendPanel :=
  update_review py
    {| sp_current_balance := sp_current_balance s; _confirming := _confirming s;
       confirm_container_display := confirm_container_display s;
       to_address := text; amount_input := amount_input s;
       wallet_password := wallet_password s; review_box := review_box s |}.

Definition edit_amount (py : builtins) (text : string) (s : LiveSendPanel)
    : LiveSendPanel :=
  update_review py
    {| sp_current_balance := sp_current_balance s; _confirming := _confirming s;
       confirm_container_display := confirm_container_display s;
       to_address := to_address s; amount_input := text;
       wallet_password := wallet_password s; review_box := review_box s |}.

Definition edit_password (text : string) (s : LiveSendPanel) : LiveSendPanel :=
  {| sp_current_balance := sp_current_balance s; _confirming := _confirming s;
     confirm_container_display := confirm_container_display s;
     to_address := to_address s; amount_input := amount_input s;
     wallet_password := text; review_box := review_box s |}.

(** [LiveSendPanel.clear_form]. *)
Definition clear_form (py : builtins) (s : LiveSendPanel) : LiveSendPanel :=
  let s := _hide_confirm_step s in
  let s := edit_to_address py "" s in
  let s := edit_amount py "" s in
  set_review ReviewHint s.

(** [on_live_send_panel_send_requested]: the checks made when the user
    confirms, and the worker started when they all pass. *)
Definition on_live_send_panel_send_requested (py : builtins)
    (validate : string → bool) (w : wallet) : wallet * option effect :=
  let s := send_panel w in
  let to_addr := strip py (to_address s) in
  let amount_str := strip py (amount_input s) in
  let password := wallet_password s in
  if String.eqb password "" then (w, None)
  else if negb (validate to_addr) then
    (set_send_panel
       (set_review (ReviewMsg "[red]Error: Invalid recipient address[/red]") s) w,
     None)
  else
    match float py amount_str with
    | None =>
        (set_send_panel
           (set_review (ReviewMsg "[red]Error: Invalid amount[/red]") s) w, None)
    | Some amount =>
        let fee := fee_estimate in
        if Qlt_bool (current_balance (app_attrs w)) (amount + fee) then
          (set_send_panel
             (set_review
                (ReviewMsg "[red]Error: Insufficient balance (amount + fee)[/red]") s) w,
           None)
        else if negb (truthy (usb_mount_point (app_attrs w))) then
          (set_send_panel
             (set_review (ReviewMsg "[red]Error: No wallet mounted[/red]") s) w, None)
        else if negb (truthy (current_public_key (app_attrs w))) then
          (set_send_panel
             (set_review (ReviewMsg "[red]Error: No wallet public key found[/red]") s) w,
           None)
        else
          (set_send_panel
             (set_review (ReviewMsg "[yellow]Sending...[/yellow]")
                (_hide_confirm_step s)) w,
           Some (RunDoSend to_addr amount password))
    end.

(** The buttons of the send form that matter to the flow (the percentage
    shortcuts only fill the amount field). *)
Inductive send_button := BtnSend | BtnCancel | BtnConfirm | BtnBack.

(** [LiveSendPanel.on_button_pressed], followed by the handling of the
    message [SendRequested] by the application.  The buttons [Confirm Send]
    and [Go Back] sit in the confirmation container and can be pressed only
    while it is displayed. *)
Definition press_send_button (py : builtins) (validate : string → bool)
    (b : send_button) (w : wallet) : wallet * option effect :=
  match b with
  | BtnSend => (set_send_panel (_show_confirm_step py validate (send_panel w)) w, None)
  | BtnCancel => (set_send_panel (clear_form py (send_panel w)) w, None)
  | BtnConfirm =>
      if confirm_container_display (send_panel w)
      then on_live_send_panel_send_requested py validate w
      else (w, None)
  | BtnBack =>
      if confirm_container_display (send_panel w)
      then (set_send_panel (_hide_confirm_step (send_panel w)) w, None)
      else (w, None)
  end.

(** What the user does on the send form. *)
Inductive send_event :=
| TypeAddress (text : string)
| TypeAmount (text : string)
| TypePassword (text : string)
| Press (b : send_button).

Definition send_step (py : builtins) (validate : string → bool)
    (e : send_event) (w : wallet) : wallet * option effect :=
  match e with
  | TypeAddress text => (set_send_panel (edit_to_address py text (send_panel w)) w, None)
  | TypeAmount text => (set_send_panel (edit_amount py text (send_panel w)) w, None)
  | TypePassword text => (set_send_panel (edit_password text (send_panel w)) w, None)
  | Press b => press_send_button py validate b w
  end.

(** A run of events on the form, with the workers started on the way. *)
Fixpoint send_run (py : builtins) (validate : string → bool)
    (events : list send_event) (w : wallet) : wallet * list effect :=
  match events with
  | [] => (w, [])
  | e :: rest =>
      let '(w, started) := send_step py validate e w in
      let '(w, later) := send_run py validate rest w in
      (w, match started with Some x => x :: later | None => later end)
  end.

(** The calls made by [_do_send], in order. *)
Inductive send_call :=
| CallBlockhash
| CallBuild (amount : Q)
| CallLoadContainer (path password : string)
| CallSign (password : string)
| CallBroadcast.

Record send_result := {
  calls : list send_call;
  final_review : review_text;
  resync : bool
}.

Definition send_error (e : string) : review_text :=
  ReviewMsg ("[red]Error: " +:+ String.substring 0 60 e +:+ "[/red]").

(** [ColdstarLiveWallet._do_send]: the calls it makes, the last text of the
    review box and whether a refresh is scheduled. *)
Definition _do_send (env : send_env) (w : wallet) (to_addr : string)
    (amount : Q) (password : string) : send_result :=
  match usb_mount_point (app_attrs w) with
  | None =>
      {| calls := [];
         final_review :=
           send_error "expected str, bytes or os.PathLike object, not NoneType";
         resync := false |}
  | Some mount_point =>
    let keypair_path := mount_point +:+ "/wallet/keypair.json" in
    match get_latest_blockhash (send_network env) with
    | Raised e =>
        {| calls := [CallBlockhash]; final_review := send_error e; resync := false |}
    | Falsy =>
        {| calls := [CallBlockhash];
           final_review := ReviewMsg "[red]Error: Could not get blockhash[/red]";
           resync := false |}
    | Returned (blockhash, _) =>
      match create_transfer_transaction env (current_public_key (app_attrs w))
              to_addr amount blockhash with
      | Raised e =>
          {| calls := [CallBlockhash; CallBuild amount];
             final_review := send_error e; resync := false |}
      | Falsy =>
          {| calls := [CallBlockhash; CallBuild amount];
             final_review := ReviewMsg "[red]Error: Could not build transaction[/red]";
             resync := false |}
      | Returned unsigned_tx =>
        match load_encrypted_container env keypair_path password with
        | Raised e =>
            {| calls := [CallBlockhash; CallBuild amount;
                         CallLoadContainer keypair_path password];
               final_review := send_error e; resync := false |}
        | Falsy =>
            {| calls := [CallBlockhash; CallBuild amount;
                         CallLoadContainer keypair_path password];
               final_review :=
                 ReviewMsg "[red]Error: Could not load wallet (wrong password?)[/red]";
               resync := false |}
        | Returned encrypted_container =>
          let made := [CallBlockhash; CallBuild amount;
                       CallLoadContainer keypair_path password;
                       CallSign password] in
          match sign_transaction_secure env unsigned_tx encrypted_container password with
          | Raised e => {| calls := made; final_review := send_error e; resync := false |}
          | Falsy =>
              {| calls := made;
                 final_review :=
                   ReviewMsg "[red]Error: Signing failed (wrong password?)[/red]";
                 resync := false |}
          | Returned signed_tx =>
            let tx_base64 := b64encode env signed_tx in
            match send_transaction (send_network env) tx_base64 with
            | Raised e =>
                {| calls := made ++ [CallBroadcast];
                   final_review := send_error e; resync := false |}
            | Falsy =>
                {| calls := made ++ [CallBroadcast];
                   final_review := ReviewMsg "[red]Transaction rejected by network[/red]";
                   resync := false |}
            | Returned signature =>
                {| calls := made ++ [CallBroadcast];
                   final_review :=
                     ReviewMsg ("[green]Sent! Sig: "
                                +:+ String.substring 0 8 signature +:+ "..."
                                +:+ String.substring (String.length signature - 8) 8 signature
                                +:+ "[/green]");
                   resync := true |}
            end
          end
        end
      end
    end
  end.

(** The flow has entered the signing step when the key container is
    loaded and handed to the signer. *)
Definition reaches_signing (r : send_result) : bool :=
  existsb (fun c => match c with CallSign _ => true | _ => false end) (calls r).

(** ** Other parts of [tui_wallet.py] and [token_logos.py] *)

(** Python's [needle in haystack] on strings. *)
Definition contains (needle haystack : string) : bool :=
  match String.index 0 needle haystack with
  | Some _ => true
  | None => false
  end.

(** Python's [l[i]]: a negative index counts from the end; [None] stands
    for [IndexError]. *)
Definition py_index {A} (l : list A) (i : Z) : option A :=
  if 0 <=? i then l !! Z.to_nat i
  else if 0 <=? Z.of_nat (length l) + i then l !! Z.to_nat (Z.of_nat (length l) + i)
  else None.

(** [TransactionHistoryPanel.get_selected_signature]; [None] stands for
    [IndexError], [Some VNone] for the answer [None]. *)
Definition get_selected_signature (h : TransactionHistoryPanel) : option value :=
  match transactions h with
  | [] => Some VNone
  | _ => get_signature <$> py_index (transactions h) (th_selected_index h)
  end.

(** [ColdstarLiveWallet._tx_explorer_link], for the configured RPC URL. *)
Definition _tx_explorer_link (rpc_url signature : string) : string :=
  let base := "https://explorer.solana.com/tx/" +:+ signature in
  if contains "devnet" rpc_url then base +:+ "?cluster=devnet"
  else if contains "testnet" rpc_url then base +:+ "?cluster=testnet"
  else base.

(** *** Airdrop *)



(** The two network calls of an airdrop. *)
Record airdrop_net := {
  request_airdrop : string → Q → option string;
  confirm_transaction : string → bool
}.

(** [ColdstarLiveWallet._do_airdrop]: the status texts shown, in order,
    and whether [refresh_data] is called at the end. *)
Definition _do_airdrop (rpc_url : string) (net : airdrop_net) (w : wallet)
    (amount : Q) : list string * bool :=
  if negb (contains "devnet" rpc_url) then
    (["[red]Airdrops only available on Devnet[/red]"], false)
  else
    match current_public_key (app_attrs w) with
    | Some pubkey =>
      if String.eqb pubkey "" then (["[red]No wallet loaded[/red]"], false) else
      let signature := request_airdrop net pubkey amount in
      match signature with
      | Some sig =>
        if String.eqb sig "" then (["[red]Airdrop request failed[/red]"], false) else
        if confirm_transaction net sig then
          (["[yellow]Waiting for confirmation...[/yellow]";
            "[green]Airdrop confirmed![/green]"], true)
        else
          (["[yellow]Waiting for confirmation...[/yellow]";
            "[yellow]Airdrop pending confirmation[/yellow]"], false)
      | None => (["[red]Airdrop request failed[/red]"], false)
      end
    | None => (["[red]No wallet loaded[/red]"], false)
    end.

(** *** Token security *)

(** The fields of a RugCheck report that the panel reads; [risks] holds
    the names of the risk items. *)
Record rugcheck_report := {
  score_normalised : Q;
  rugged : bool;
  risks : list string
}.

(** An HTTP answer: its status code and what [response.json()] gives. *)
Record http_response := {
  status_code : Z;
  json : outcome rugcheck_report
}.

(** The two HTTP clients tried in turn, on the report URL. *)
Record http_clients := {
  httpx_get : string → outcome http_response;
  requests_get : string → outcome http_response
}.

(** The values of [security_data["error"]]:
    ["non_mainnet"], [f"http_client:{str(e)[:30]}"], ["no_response"],
    ["auth"], ["rate_limited"], ["unknown_token"],
    [f"API error {status_code}"] and [f"Check failed: {str(e)[:30]}"]. *)
Inductive security_error :=
| NonMainnet
| HttpClient (e : string)
| NoResponse
| Auth
| RateLimited
| UnknownToken
| ApiError (code : Z)
| CheckFailed (e : string).

(** What ends up in [security_data]: an error dictionary, the report, or
    the empty dictionary a falsy [response.json()] stands for. *)
Inductive security_data :=
| SecurityError (e : security_error)
| SecurityReport (r : rugcheck_report)
| SecurityEmpty.

(** [TokenSecurityPanel._fetch_security]. *)
Definition _fetch_security (rpc_url : string) (http : http_clients) (mint : string)
    : security_data :=
  if contains "devnet" rpc_url || contains "testnet" rpc_url then
    SecurityError NonMainnet
  else
    let url := "https://premium.rugcheck.xyz/v1/tokens/" +:+ mint +:+ "/report" in
    let classify (response : outcome http_response) : security_data :=
      match response with
      | Returned response =>
          if status_code response =? 200 then
            match json response with
            | Returned data => SecurityReport data
            | Falsy => SecurityEmpty
            | Raised e => SecurityError (CheckFailed (String.substring 0 30 e))
            end
          else if (status_code response =? 401) || (status_code response =? 403) then
            SecurityError Auth
          else if status_code response =? 429 then SecurityError RateLimited
          else if status_code response =? 400 then SecurityError UnknownToken
          else SecurityError (ApiError (status_code response))
      | Falsy => SecurityError NoResponse
      | Raised e => SecurityError (CheckFailed (String.substring 0 30 e))
      end in
    match httpx_get http url with
    | Raised _ =>
        match requests_get http url with
        | Raised e => SecurityError (HttpClient (String.substring 0 30 e))
        | response => classify response
        end
    | response => classify response
    end.

(** [TokenSecurityPanel.watch_selected_token]: the mint whose report is
    fetched in the background, if any. *)
Definition watch_selected_token (token : option token_balance) : option string :=
  match token with
  | Some t => if truthy (mint t) then mint t else None
  | None => None
  end.

(** *** Portfolio values *)

(** [_usd] of [LivePortfolioPanel.refresh_portfolio]. *)
Definition _usd (symbol : string) (balance : Q) : Q :=
  if String.eqb symbol "USDC" || String.eqb symbol "USDT" then balance
  else if String.eqb symbol "RAY" then balance * (17 # 100)
  else if String.eqb symbol "BONK" then balance * (1 # 100000)
  else if String.eqb symbol "JUP" then balance * (65 # 100)
  else 0.

(** [total_value] of [LivePortfolioPanel.refresh_portfolio]:
    [sol_value + sum([...])], the sum running from 0 over the tokens. *)
Definition total_value (p : LivePortfolioPanel) : Q :=
  let sol_value := (pp_sol_balance p * (295 # 2))%Q in
  (sol_value +
   fold_left Qplus
     (map (fun t =>
             if String.eqb (symbol t) "USDC" || String.eqb (symbol t) "USDT"
             then balance t else 0)
        (pp_tokens p))
     0)%Q.

(** *** Token icons ([token_logos.py]) *)

(** The table [TOKEN_LOGOS]. *)
Definition TOKEN_LOGOS : list (string * string) := [
  ("SOL", "https://raw.githubusercontent.com/solana-labs/token-list/main/assets/mainnet/So11111111111111111111111111111111111111112/logo.png");
  ("USDC", "https://raw.githubusercontent.com/solana-labs/token-list/main/assets/mainnet/EPjFWdd5AufqSSqeM2qN1xzybapC8G4wEGGkZwyTDt1v/logo.png");
  ("USDT", "https://raw.githubusercontent.com/solana-labs/token-list/main/assets/mainnet/Es9vMFrzaCERmJfrF4H2FYD4KCoNkY11McCe8BenwNYB/logo.png");
  ("RAY", "https://raw.githubusercontent.com/solana-labs/token-list/main/assets/mainnet/4k3Dyjzvzp8eMZWUXbBCjEvwSkkk59S5iCNLY3QrkX6R/logo.png");
  ("BONK", "https://arweave.net/hQiPZOsRZXGXBJd_82PhVdlM_hACsT_q6wqwf5cSY7I");
  ("JUP", "https://static.jup.ag/jup/icon.png")
].

(** [TOKEN_LOGOS.get(symbol)]. *)
Fixpoint logo_url (table : list (string * string)) (symbol : string) : option string :=
  match table with
  | [] => None
  | (k, url) :: rest => if String.eqb k symbol then Some url else logo_url rest symbol
  end.

(** The values of [terminal_type]: ["kitty"], ["iterm2"], ["unsupported"]. *)
Inductive terminal_type := Kitty | Iterm2 | UnsupportedTerminal.

(** [TokenLogoManager._detect_terminal], on the values of [TERM] and
    [TERM_PROGRAM]; [lower] is [str.lower]. *)
Definition _detect_terminal (lower : string → string) (term term_program : string)
    : terminal_type :=
  if contains "kitty" (lower term) then Kitty
  else if String.eqb term_program "iTerm.app" then Iterm2
  else UnsupportedTerminal.

Definition supports_images (t : terminal_type) : bool :=
  match t with
  | Kitty | Iterm2 => true
  | UnsupportedTerminal => false
  end.

(** What the logo manager meets outside: whether PIL and requests were
    imported, [str.lower], whether a cache file exists, whether the
    download of a URL into a cache file succeeds (status 200, image
    resized and saved), and the base64 text of a file when it is rendered
    ([None] when the file is missing or cannot be read). *)
Record logo_env := {
  imaging_available : bool;
  lower : string → string;
  cache_file_exists : string → bool;
  download_logo : string → string → bool;
  read_base64 : string → option string
}.

(** [TokenLogoManager.fetch_logo]: the cache file, named after the symbol
    in lower case. *)
Definition fetch_logo (env : logo_env) (symbol : string) : option string :=
  if negb (imaging_available env) then None
  else
    match logo_url TOKEN_LOGOS symbol with
    | None => None
    | Some url =>
        if String.eqb url "" then None else
        let cache_file := lower env symbol +:+ ".png" in
        if cache_file_exists env cache_file then Some cache_file
        else if download_logo env url cache_file then Some cache_file
        else None
    end.

Definition ESC : string := String (Ascii.ascii_of_nat 27) "".
Definition BEL : string := String (Ascii.ascii_of_nat 7) "".

(** [render_image_kitty] and [render_image_iterm2]. *)
Definition render_image_kitty (env : logo_env) (image_path : string) : string :=
  match read_base64 env image_path with
  | Some img_data => ESC +:+ "_Ga=T,f=100,t=f;" +:+ img_data +:+ ESC +:+ "\ "
  | None => ""
  end.

Definition render_image_iterm2 (env : logo_env) (image_path : string) : string :=
  match read_base64 env image_path with
  | Some img_data =>
      ESC +:+ "]1337;File=inline=1;width=2;height=1:" +:+ img_data +:+ BEL
  | None => ""
  end.

(** [TokenLogoManager.get_token_icon]. *)
Definition get_token_icon (t : terminal_type) (env : logo_env) (symbol : string)
    : string :=
  if negb (supports_images t) then ""
  else
    match fetch_logo env symbol with
    | None => ""
    | Some logo_path =>
        match t with
        | Kitty => render_image_kitty env logo_path
        | Iterm2 => render_image_iterm2 env logo_path
        | UnsupportedTerminal => ""
        end
    end.

(** ** Notions used by the statements *)

(** The detail lookup of an entry failed: no signature to look up, a falsy
    answer, or an exception. *)
Definition detail_fetch_failed (get_transaction_details : value → outcome tx_detail)
    (tx : tx_entry) : Prop :=
  match tx !! "signature" with
  | None => True
  | Some sig =>
      get_transaction_details sig = Falsy ∨
      ∃ e, get_transaction_details sig = Raised e
  end.

(** An entry without direction and amount fields. *)
Definition unenriched (entry : tx_entry) : Prop :=
  entry !! "direction" = None ∧ entry !! "sol_delta" = None ∧
  entry !! "fee_sol" = None.


(** The entry [parse_token_balance] builds for an account. *)
Definition parsed_entry (a : token_account) : token_balance :=
  let info := find_token_info KNOWN_TOKENS (ta_mint a) in
  {| mint := ta_mint a;
     symbol := match info with Some i => kt_symbol i | None => "Unknown" end;
     icon := match info with Some i => kt_icon i | None => "🪙" end;
     balance := match ta_uiAmount a with UiNumber q => q | _ => 0%Q end;
     decimals := default 0 (ta_decimals a);
     is_known := match info with Some _ => true | None => false end |}.



(** A sequence of [loadMore] operations, one per answering network. *)
Definition load_more_run (nets : list SolanaNetwork) (w : wallet) : wallet :=
  foldl (fun w net => load_more net w) w nets.

(** The selection index designates the native asset (0) or a token (1..N). *)
Definition selection_in_range (p : LivePortfolioPanel) : Prop :=
  0 ≤ pp_selected_index p ≤ Z.of_nat (length (pp_tokens p)).

(** The entry the detail views end up showing for an index: [None] is the
    native asset. *)
Definition resolved_token (tokens : list token_balance) (index : Z)
    : option token_balance :=
  if index <=? 0 then None
  else if Z.of_nat (length tokens) <? index then head tokens
  else tokens !! Z.to_nat (index - 1).

(** The selected row of the history panel is a row of the list (row 0 when
    the list is empty). *)
Definition history_selection_ok (h : TransactionHistoryPanel) : Prop :=
  0 ≤ th_selected_index h ≤ Z.max 0 (Z.of_nat (length (transactions h)) - 1).

(** The selected row lies within the displayed page. *)
Definition selection_visible (h : TransactionHistoryPanel) : Prop :=
  0 ≤ th_selected_index h < page_size h.

(** The same surroundings of a poll cycle with another answer of
    [usb_manager.mount_device]. *)
Definition with_mount_device (mount : option string → option string)
    (env : poll_env) : poll_env :=
  {| network := network env;
     detect_usb_devices := detect_usb_devices env;
     now := now env;
     mount_device := mount;
     read_pubkey := read_pubkey env;
     token_accounts_rpc := token_accounts_rpc env |}.


(** The two symbols [refresh_portfolio] counts at face value. *)
Definition is_stablecoin (t : token_balance) : bool :=
  String.eqb (symbol t) "USDC" || String.eqb (symbol t) "USDT".

(** The portfolio panel with another token list. *)
Definition with_tokens (tokens : list token_balance) (p : LivePortfolioPanel)
    : LivePortfolioPanel :=
  {| pp_sol_balance := pp_sol_balance p; pp_tokens := tokens;
     pp_public_key := pp_public_key p;
     pp_selected_index := pp_selected_index p |}.

(** Entries that sort alike: the same known flag and the same balance. *)
Definition same_sort_key (b0 b : token_balance) : bool :=
  token_leb b0 b && token_leb b b0.

(** The same surroundings of the logo manager with another outcome of the
    downloads. *)
Definition with_download (download : string → string → bool) (env : logo_env)
    : logo_env :=
  {| imaging_available := imaging_available env; lower := lower env;
     cache_file_exists := cache_file_exists env; download_logo := download;
     read_base64 := read_base64 env |}.

(** ** Sample data

    A ledger of thirteen raw entries of one owner, newest first.  The
    first three are a transfer the owner paid for, a transfer it received
    and an entry whose detail lookup fails; the details of the others are
    not available. *)

Definition raw_tx (sig : string) (slot : Z) : tx_entry :=
  <["signature" := VStr sig]> (<["slot" := VInt slot]> (<["err" := VNone]> ∅)).

Definition sample_tx_sent : tx_entry := raw_tx "sigA" 300.
Definition sample_tx_received : tx_entry := raw_tx "sigB" 290.
Definition sample_tx_failed : tx_entry := raw_tx "sigC" 280.

Definition sample_batch : list tx_entry :=
  [sample_tx_sent; sample_tx_received; sample_tx_failed].

Definition sample_ledger : list tx_entry :=
  sample_batch ++
  [raw_tx "sig04" 270; raw_tx "sig05" 260; raw_tx "sig06" 250;
   raw_tx "sig07" 240; raw_tx "sig08" 230; raw_tx "sig09" 220;
   raw_tx "sig10" 210; raw_tx "sig11" 200; raw_tx "sig12" 190;
   raw_tx "sig13" 180].

Definition sample_detail_sent : tx_detail :=
  {| account_keys := ["Owner111"; "Peer2222"; "11111111"];
     preBalances := [2000000; 0; 1];
     postBalances := [1494000; 501000; 1];
     fee := 5000 |}.

Definition sample_detail_received : tx_detail :=
  {| account_keys := ["Peer2222"; "Owner111"; "11111111"];
     preBalances := [900000; 300000; 1];
     postBalances := [395000; 800000; 1];
     fee := 5000 |}.

Definition sample_details (sig : value) : outcome tx_detail :=
  match sig with
  | VStr "sigA" => Returned sample_detail_sent
  | VStr "sigB" => Returned sample_detail_received
  | VStr "sigC" => Raised "timeout"
  | _ => Falsy
  end.

(** Four token accounts: two known mints, an unknown mint with a zero
    balance, and a known mint whose amount is [null]. *)
Definition sample_accounts : list token_account :=
  [ {| ta_mint := Some "DezXAZ8z7PnrnRJjz3wXBoRgixCa6xjnB7YaB1pPB263";
       ta_uiAmount := UiNumber 3; ta_decimals := Some 5 |};
    {| ta_mint := Some "So1vedUnknownMint111111111111111111111111111";
       ta_uiAmount := UiNumber 0; ta_decimals := Some 9 |};
    {| ta_mint := Some "EPjFWdd5AufqSSqeM2qN1xzybapC8G4wEGGkZwyTDt1v";
       ta_uiAmount := UiNumber (25 # 2); ta_decimals := Some 6 |};
    {| ta_mint := Some "JUPyiwrYJFskUPiHa7hkeR8VUtAeFoSYbKedZNsDvCN";
       ta_uiAmount := UiNull; ta_decimals := Some 6 |} ].

Definition sample_token_rpc (failing : bool) (address : string)
    : option (list token_account) :=
  if failing then None else Some sample_accounts.

(** The builtins on the texts that occur below: no surrounding blanks to
    strip, and the decimal numerals ["0.5"], ["1.5"] and ["0"]. *)
Definition sample_py : builtins :=
  {| strip := fun s => s;
     float := fun s =>
       if String.eqb s "0.5" then Some (1 # 2)
       else if String.eqb s "1.5" then Some (3 # 2)
       else if String.eqb s "0" then Some 0%Q
       else None |}.

Definition sample_network (connected : bool) : SolanaNetwork :=
  {| is_connected := connected;
     get_balance := fun _ => if connected then Some 1%Q else None;
     get_transaction_history := fun _ limit => take limit sample_ledger;
     get_transaction_details := sample_details;
     getSignaturesForAddress :=
       if connected then ledger_signatures_before sample_ledger
       else fun _ _ _ => Raised "unreachable";
     get_latest_blockhash := Returned ("blockhash1", 1000);
     send_transaction := fun _ => Returned "5igOfTheSentTransaction" |}.

Definition sample_device0 : usb_device :=
  {| dev_device := Some "/dev/sdb"; dev_model := Some "COLD-A";
     dev_size := Some "8G"; dev_mountpoint := Some "/media/cold0" |}.

Definition sample_device1 : usb_device :=
  {| dev_device := Some "/dev/sdc"; dev_model := Some "COLD-B";
     dev_size := Some "8G"; dev_mountpoint := Some "/media/cold1" |}.

(** Only the first device holds a wallet. *)
Definition sample_read_pubkey (mount_point : string) : option string :=
  if String.eqb mount_point "/media/cold0" then Some "Owner111" else None.

Definition sample_env (connected : bool) (devices : list usb_device) : poll_env :=
  {| network := sample_network connected;
     detect_usb_devices := devices;
     now := 100%Q;
     mount_device := fun _ => None;
     read_pubkey := sample_read_pubkey;
     token_accounts_rpc := sample_token_rpc false |}.

(** The session after a first complete poll with the first device. *)
Definition sample_wallet : wallet :=
  fst (refresh_data sample_py (sample_env true [sample_device0]) initial_wallet).

(** The same session after four presses of the down key on the
    portfolio: the last of the four tokens is selected. *)
Definition sample_wallet_last_token : wallet :=
  portfolio_key LivePortfolioPanel_action_select_next
    (portfolio_key LivePortfolioPanel_action_select_next
       (portfolio_key LivePortfolioPanel_action_select_next
          (portfolio_key LivePortfolioPanel_action_select_next sample_wallet))).

Definition sample_send_env : send_env :=
  {| validate_address := fun s => (String.length s =? 44)%nat;
     send_network := sample_network true;
     create_transfer_transaction := fun _ _ _ _ => Returned "unsigned";
     load_encrypted_container := fun _ _ => Returned "container";
     sign_transaction_secure := fun _ _ _ => Returned "signed";
     b64encode := fun s => s |}.

Definition sample_recipient : string :=
  "Recipient11111111111111111111111111111111111".

(** Three networks for three [loadMore] operations; the second is
    unreachable. *)
Definition sample_nets : list SolanaNetwork :=
  [sample_network true; sample_network false; sample_network true].

(** The session built from the first device, after the second device is
    selected and the refresh that follows has run: the second device holds
    no key file, and the key, the balance, the tokens and the transactions
    of the first device are still there. *)
Definition sample_wallet_second_device : wallet :=
  fst (refresh_data sample_py (sample_env true [sample_device0; sample_device1])
         (fst (on_device_panel_device_selected 1 sample_wallet))).

(** The events of a send whose amount is edited to ["0"] while the
    confirmation step is open. *)
Definition zero_amount_events : list send_event :=
  [TypeAddress sample_recipient; TypeAmount "0.5"; Press BtnSend;
   TypeAmount "0"; TypePassword "secret"; Press BtnConfirm].

(** A device that is not mounted, met three seconds after start-up. *)
Definition sample_device_unmounted : usb_device :=
  {| dev_device := Some "/dev/sdd"; dev_model := None;
     dev_size := None; dev_mountpoint := None |}.

Definition sample_env_early : poll_env :=
  {| network := sample_network true;
     detect_usb_devices := [sample_device_unmounted];
     now := 3%Q;
     mount_device := fun _ => None;
     read_pubkey := sample_read_pubkey;
     token_accounts_rpc := sample_token_rpc false |}.

(** A report, and two HTTP clients of which the first is not installed. *)
Definition sample_report : rugcheck_report :=
  {| score_normalised := 62 # 100; rugged := false;
     risks := ["Low liquidity"; "Mutable metadata"] |}.

Definition sample_http : http_clients :=
  {| httpx_get := fun _ => Raised "No module named httpx";
     requests_get := fun _ =>
       Returned {| status_code := 200; json := Returned sample_report |} |}.

(** A logo cache that holds the logo of USDC only. *)
Definition sample_logo_env : logo_env :=
  {| imaging_available := true;
     lower := fun s => if String.eqb s "USDC" then "usdc" else s;
     cache_file_exists := fun f => String.eqb f "usdc.png";
     download_logo := fun _ _ => false;
     read_base64 := fun f => if String.eqb f "usdc.png" then Some "iVBORw0KGgo=" else None |}.

(** * Properties *)

Section Enrichment.

Variable get_transaction_details : value → outcome tx_detail.

Lemma enrich_fold_acc pubkey txs acc :
  fold_left
    (fun enriched tx => enriched ++ [enrich_entry get_transaction_details pubkey tx])
    txs acc
  = acc ++ map (enrich_entry get_transaction_details pubkey) txs.
Proof.
  revert acc. induction txs as [|tx txs IH]; intros acc; simpl.
  - by rewrite app_nil_r.
  - rewrite IH. by rewrite <- app_assoc.
Qed.

Lemma enrich_transactions_map txs pubkey :
  _enrich_transactions get_transaction_details txs pubkey
  = map (enrich_entry get_transaction_details pubkey) txs.
Proof. unfold _enrich_transactions. by rewrite enrich_fold_acc. Qed.

Lemma enrich_transactions_lookup txs pubkey i :
  _enrich_transactions get_transaction_details txs pubkey !! i
  = enrich_entry get_transaction_details pubkey <$> txs !! i.
Proof. rewrite enrich_transactions_map. apply list_lookup_fmap. Qed.

End Enrichment.

(** ** Enrichment of ledger entries *)

Lemma lamports_to_sol_native (x : Z) :
  (lamports_to_sol x == inject_Z x / inject_Z 1000000000)%Q.
Proof.
  unfold lamports_to_sol, LAMPORTS_PER_SOL, Qeq, Qdiv, Qmult, Qinv, inject_Z.
  simpl. lia.
Qed.


Lemma index_lookup (k : string) (keys : list string) (i : nat) :
  index (Some k) keys = Some i →
  keys !! i = Some k ∧ ∀ j, (j < i)%nat → keys !! j ≠ Some k.
Proof.
  revert i. induction keys as [|y keys IH]; intros i; simpl; [done|].
  destruct (decide (Some y = Some k)) as [Heq|Hne].
  - intros [= <-]. split; [done|]. intros j Hj. lia.
  - destruct (index (Some k) keys) as [i'|] eqn:Hi; simpl; [|done].
    intros [= <-]. destruct (IH i' eq_refl) as [Hk Hmin]. split; [done|].
    intros [|j] Hj; simpl; [congruence|]. apply Hmin. lia.
Qed.

Lemma lookup_index (k : string) (keys : list string) (i : nat) :
  keys !! i = Some k → (∀ j, (j < i)%nat → keys !! j ≠ Some k) →
  index (Some k) keys = Some i.
Proof.
  revert i. induction keys as [|y keys IH]; intros i; simpl; [done|].
  intros Hi Hmin. destruct (decide (Some y = Some k)) as [Heq|Hne].
  - destruct i as [|i]; [done|]. exfalso. apply (Hmin 0%nat); [lia|done].
  - destruct i as [|i]; simpl in Hi; [congruence|].
    rewrite (IH i Hi); [done|]. intros j Hj. apply (Hmin (S j)). lia.
Qed.


(** The amount reported for a send is negative exactly when the balance
    fell by more than the fee. *)
Lemma sent_delta_negative (pre0 post0 fee0 : Z) :
  (lamports_to_sol (post0 - pre0 + fee0) < 0)%Q ↔ fee0 < pre0 - post0.
Proof.
  unfold lamports_to_sol, Qlt. simpl. lia.
Qed.

Section EnrichedBatch.

Variable get_transaction_details : value → outcome tx_detail.

Abbreviation enriched txs pubkey :=
  (_enrich_transactions get_transaction_details txs pubkey).



Lemma enrich_with_detail_other_keys pubkey d entry (key : string) :
  key ≠ "direction" → key ≠ "sol_delta" → key ≠ "fee_sol" →
  enrich_with_detail pubkey d entry !! key = entry !! key.
Proof.
  intros H1 H2 H3. unfold enrich_with_detail.
  rewrite lookup_insert_ne by done.
  destruct (index pubkey (account_keys d)) as [idx|]; [|done].
  repeat case_match; try done;
    rewrite lookup_insert_ne by done; by rewrite lookup_insert_ne by done.
Qed.

Lemma enrich_entry_other_keys pubkey tx (key : string) :
  key ≠ "direction" → key ≠ "sol_delta" → key ≠ "fee_sol" →
  enrich_entry get_transaction_details pubkey tx !! key = tx !! key.
Proof.
  intros H1 H2 H3. unfold enrich_entry.
  repeat case_match; try done. by apply enrich_with_detail_other_keys.
Qed.

Lemma enrich_entry_failed pubkey tx :
  detail_fetch_failed get_transaction_details tx → enrich_entry get_transaction_details pubkey tx = tx.
Proof.
  unfold detail_fetch_failed, enrich_entry.
  destruct (tx !! "signature") as [sig|]; [|done].
  intros [-> | [e ->]]; done.
Qed.

(** C7. The enriched batch has one entry per input entry, in the same
    order: the entry at each position carries the base fields of the input
    at that position, and when its detail lookup failed it is the plain
    copy of the input, without direction or amount fields, while the other
    positions are enriched as usual. *)
Theorem enrich_batch_entrywise (txs : list tx_entry) (pubkey : option string) :
  length (enriched txs pubkey) = length txs ∧
  ∀ (i : nat) (tx : tx_entry), txs !! i = Some tx →
    ∃ entry : tx_entry,
      enriched txs pubkey !! i = Some entry ∧
      entry = enrich_entry get_transaction_details pubkey tx ∧
      get_signature entry = get_signature tx ∧
      (∀ key : string, key ≠ "direction" → key ≠ "sol_delta" → key ≠ "fee_sol" →
         entry !! key = tx !! key) ∧
      (detail_fetch_failed get_transaction_details tx → entry = tx ∧ (unenriched tx → unenriched entry)).
Proof.
  split.
  - rewrite enrich_transactions_map. apply length_map.
  - intros i tx Hi. eexists. split.
    { rewrite enrich_transactions_lookup, Hi. reflexivity. }
    split; [done|]. split.
    { unfold get_signature. by rewrite enrich_entry_other_keys. }
    split. { intros key. apply enrich_entry_other_keys. }
    intros Hfail. rewrite (enrich_entry_failed _ _ Hfail). done.
Qed.

End EnrichedBatch.

(** *** The enrichment run on a sample batch *)



Example enrich_sample_batch :
  (fun entry => (get_signature entry, entry !! "direction", entry !! "sol_delta",
                 entry !! "fee_sol"))
    <$> _enrich_transactions sample_details sample_batch (Some "Owner111")
  = [ (VStr "sigA", Some (VStr "sent"), Some (VNum (-501000 # 1000000000)),
       Some (VNum (5000 # 1000000000)));
      (VStr "sigB", Some (VStr "received"), Some (VNum (500000 # 1000000000)),
       Some (VNum (5000 # 1000000000)));
      (VStr "sigC", None, None, None) ].
Proof. vm_compute. reflexivity. Qed.

(** ** Token balances *)

Section InsertionSort.

Context {A : Type} (leb : A → A → bool).
Hypothesis leb_total : ∀ x y, leb x y = true ∨ leb y x = true.
Hypothesis leb_trans : ∀ x y z, leb x y = true → leb y z = true → leb x z = true.





(** Stability: the entries whose key equals a given key keep their
    relative order. *)
Lemma insert_sorted_same_key (x0 a : A) (l : list A) :
  List.filter (fun z => leb x0 z && leb z x0) (insert_sorted leb a l)
  = List.filter (fun z => leb x0 z && leb z x0) (a :: l).
Proof.
  induction l as [|y l IH]; [done|].
  cbn [insert_sorted]. destruct (leb a y) eqn:Hay; [done|].
  cbn [List.filter] in *. rewrite IH.
  destruct (leb x0 y && leb y x0) eqn:Hy; [|done].
  apply andb_true_iff in Hy as [Hxy Hyx].
  destruct (leb x0 a && leb a x0) eqn:Ha; [|done].
  apply andb_true_iff in Ha as [Hxa Hax].
  rewrite (leb_trans a x0 y Hax Hxy) in Hay. done.
Qed.

Lemma stable_sort_stable (x0 : A) (l : list A) :
  List.filter (fun z => leb x0 z && leb z x0) (stable_sort leb l)
  = List.filter (fun z => leb x0 z && leb z x0) l.
Proof.
  induction l as [|a l IH]; [done|].
  cbn [stable_sort foldr]. fold (stable_sort leb l).
  rewrite insert_sorted_same_key. cbn [List.filter]. by rewrite IH.
Qed.

End InsertionSort.



Lemma key_leb_trans (a b c : bool * Q) :
  key_leb a b = true → key_leb b c = true → key_leb a c = true.
Proof.
  destruct a as [[] qa], b as [[] qb], c as [[] qc]; unfold key_leb; simpl;
    try done; rewrite !Qle_bool_iff; apply Qle_trans.
Qed.


Lemma parse_fold_acc (accounts : list token_account) (acc : list token_balance) :
  fold_left
    (fun balances account =>
       match parse_token_balance account with
       | Some parsed => balances ++ [parsed]
       | None => balances
       end) accounts acc
  = acc ++ omap parse_token_balance accounts.
Proof.
  revert acc. induction accounts as [|a accounts IH]; intros acc.
  - simpl. by rewrite app_nil_r.
  - cbn [fold_left omap list_omap]. rewrite IH.
    destruct (parse_token_balance a) as [parsed|]; [|done].
    by rewrite <- app_assoc.
Qed.

Lemma parse_token_balance_total (a : token_account) :
  parse_token_balance a = Some (parsed_entry a).
Proof. unfold parse_token_balance, parsed_entry. by destruct (ta_uiAmount a). Qed.

Lemma omap_parse (accounts : list token_account) :
  omap parse_token_balance accounts = map parsed_entry accounts.
Proof.
  induction accounts as [|a accounts IH]; [done|].
  cbn [omap list_omap]. rewrite parse_token_balance_total.
  fold (omap parse_token_balance accounts). by rewrite IH.
Qed.


(** *** The token list of the sample wallet *)

Example sample_token_balances :
  (fun b => (symbol b, balance b, is_known b))
    <$> get_all_token_balances (sample_token_rpc false) "Owner111"
  = [("USDC", 25 # 2, true); ("BONK", 3 # 1, true); ("JUP", 0 # 1, true);
     ("Unknown", 0 # 1, false)]%Q.
Proof. vm_compute. reflexivity. Qed.

(** ** Pagination of the transaction history *)



Lemma update_txs_transactions (txs : list tx_entry) (w : wallet) :
  transactions (history (_update_txs txs w)) = txs.
Proof. unfold _update_txs. by case_decide. Qed.

Lemma update_txs_app_fields (txs : list tx_entry) (w : wallet) :
  app_attrs (_update_txs txs w) = app_attrs w.
Proof. unfold _update_txs. by case_decide. Qed.




(** *** A sample run of three [loadMore] operations *)



Example load_more_sample_run :  get_signature <$> transactions (history (load_more_run sample_nets sample_wallet))
  = get_signature <$> sample_ledger.
Proof. vm_compute. reflexivity. Qed.

(** ** Token selection *)

Lemma apply_token_selection_resolved (index : Z) (w : wallet) :
  td_selected_token (token_details (_apply_token_selection index w))
    = resolved_token (current_tokens (app_attrs w)) index ∧
  ts_selected_token (token_security (_apply_token_selection index w))
    = resolved_token (current_tokens (app_attrs w)) index ∧
  portfolio (_apply_token_selection index w) = portfolio w ∧
  app_attrs (_apply_token_selection index w) = app_attrs w.
Proof.
  unfold _apply_token_selection, resolved_token.
  destruct (Z.leb_spec index 0) as [Hle|Hpos]; [done|].
  destruct (current_tokens (app_attrs w)) as [|t tokens] eqn:Htok.
  { destruct (Z.ltb_spec (Z.of_nat (length (@nil token_balance))) index);
      [done | simpl in *; lia]. }
  set (len := Z.of_nat (length (t :: tokens))).
  destruct (Z.leb_spec len (index - 1)) as [Hbig|Hin].
  - assert ((len <? index) = true) as -> by (apply Z.ltb_lt; lia). done.
  - assert ((len <? index) = false) as -> by (apply Z.ltb_ge; lia).
    destruct ((t :: tokens) !! Z.to_nat (index - 1)) as [selected|] eqn:Hsel; [done|].
    apply lookup_ge_None in Hsel. unfold len in Hin. lia.
Qed.

Lemma commit_tokens_selection (tokens : list token_balance) (w : wallet) :
  pp_tokens (portfolio (commit_tokens tokens w)) = tokens ∧
  current_tokens (app_attrs (commit_tokens tokens w)) = tokens ∧
  pp_selected_index (portfolio (commit_tokens tokens w))
    = pp_selected_index (portfolio w) ∧
  td_selected_token (token_details (commit_tokens tokens w))
    = resolved_token tokens (pp_selected_index (portfolio w)) ∧
  ts_selected_token (token_security (commit_tokens tokens w))
    = resolved_token tokens (pp_selected_index (portfolio w)).
Proof.
  unfold commit_tokens, _update_tokens.
  match goal with |- context [_apply_token_selection ?i ?w0] =>
    destruct (apply_token_selection_resolved i w0) as (Hd & Hs & Hp & Ha)
  end.
  rewrite Hd, Hs, Hp, Ha. done.
Qed.

Lemma resolved_token_valid (tokens : list token_balance) (index : Z) :
  match resolved_token tokens index with
  | None => index ≤ 0 ∨ tokens = []
  | Some t =>
      ∃ i : Z, 1 ≤ i ≤ Z.of_nat (length tokens) ∧
        tokens !! Z.to_nat (i - 1) = Some t ∧
        i = (if decide (index ≤ Z.of_nat (length tokens)) then index else 1)
  end.
Proof.
  unfold resolved_token.
  destruct (Z.leb_spec index 0) as [Hle|Hpos]; [by left|].
  destruct (Z.ltb_spec (Z.of_nat (length tokens)) index) as [Hbig|Hin].
  - destruct tokens as [|t tokens]; simpl; [by right|].
    exists 1. rewrite decide_False by (simpl in Hbig; lia).
    split; [simpl; lia|]. done.
  - destruct (tokens !! Z.to_nat (index - 1)) as [t|] eqn:Hsel.
    + exists index. rewrite decide_True by lia. split; [lia|]. done.
    + apply lookup_ge_None in Hsel. lia.
Qed.

(** C5, as the code has it.  The arrow keys keep the index within
    [0, tokenCount].  A token-list update leaves the index as it is and
    re-points the detail views: they show the token at the index when the
    index is within 1..N, the native asset when the index is 0 or the list
    is empty, and the first token (index 1) when the list shrank below the
    index; the entry shown is never out of bounds. *)
Theorem token_selection_resolves_valid :
  (∀ p : LivePortfolioPanel, selection_in_range p →
     selection_in_range (LivePortfolioPanel_action_select_prev p) ∧
     selection_in_range (LivePortfolioPanel_action_select_next p)) ∧
  (∀ (tokens : list token_balance) (w : wallet),
     pp_tokens (portfolio (commit_tokens tokens w)) = tokens ∧
     pp_selected_index (portfolio (commit_tokens tokens w))
       = pp_selected_index (portfolio w) ∧
     td_selected_token (token_details (commit_tokens tokens w))
       = resolved_token tokens (pp_selected_index (portfolio w)) ∧
     ts_selected_token (token_security (commit_tokens tokens w))
       = resolved_token tokens (pp_selected_index (portfolio w))) ∧
  (∀ (tokens : list token_balance) (index : Z),
     match resolved_token tokens index with
     | None => index ≤ 0 ∨ tokens = []
     | Some t =>
         ∃ i : Z, 1 ≤ i ≤ Z.of_nat (length tokens) ∧
           tokens !! Z.to_nat (i - 1) = Some t ∧
           i = (if decide (index ≤ Z.of_nat (length tokens)) then index else 1)
     end).
Proof.
  split; [|split].
  - intros p [Hlo Hhi]. unfold selection_in_range,
      LivePortfolioPanel_action_select_prev, LivePortfolioPanel_action_select_next.
    split.
    + destruct (Z.ltb_spec 0 (pp_selected_index p)); simpl; lia.
    + destruct (Z.ltb_spec (pp_selected_index p) (Z.of_nat (length (pp_tokens p))));
        simpl; lia.
  - intros tokens w.
    destruct (commit_tokens_selection tokens w) as (H1 & _ & H2 & H3 & H4). done.
  - apply resolved_token_valid.
Qed.

(** The selection was within range before the update; once the list has
    shrunk from four tokens to two, the index (4) is above the token count
    (2), and the detail views show the first token (index 1), not the
    token at the nearest valid index (2). *)
Lemma token_list_shrink_leaves_index_out_of_range :
  selection_in_range (portfolio sample_wallet_last_token) ∧
  pp_selected_index
    (portfolio (commit_tokens (take 2 (current_tokens (app_attrs sample_wallet)))
                  sample_wallet_last_token)) = 4 ∧
  Z.of_nat (length (pp_tokens
    (portfolio (commit_tokens (take 2 (current_tokens (app_attrs sample_wallet)))
                  sample_wallet_last_token)))) = 2 ∧
  td_selected_token
    (token_details (commit_tokens (take 2 (current_tokens (app_attrs sample_wallet)))
                      sample_wallet_last_token))
    = current_tokens (app_attrs sample_wallet) !! 0%nat ∧
  current_tokens (app_attrs sample_wallet) !! 0%nat
    ≠ current_tokens (app_attrs sample_wallet) !! 1%nat.
Proof.
  split; [unfold selection_in_range; vm_compute; split; discriminate|].
  split; [vm_compute; reflexivity|].
  split; [vm_compute; reflexivity|].
  split; [vm_compute; reflexivity|].
  vm_compute. discriminate.
Qed.


(** ** The poll cycle *)

(** C6, as the code has it.  A cycle that halts before completion (no
    device, selection required, no mount point, no key file, network
    unreachable, no balance) leaves the balance, the tokens, the
    transactions and the panels that show them as they were, and never
    unsets the public key: the key is unchanged when the cycle halts
    before the key file is read, and is the key just read otherwise.  The
    device list is always replaced by the list just detected. *)
Theorem poll_failure_keeps_later_stages (py : builtins) (env : poll_env)
    (w w' : wallet) (halt : poll_halt) :
  _fetch_wallet_data py env w = (w', halt) →
  halt ≠ PollCompleted →
  detected_devices (app_attrs w') = detect_usb_devices env ∧
  current_balance (app_attrs w') = current_balance (app_attrs w) ∧
  current_tokens (app_attrs w') = current_tokens (app_attrs w) ∧
  history w' = history w ∧
  send_panel w' = send_panel w ∧
  token_details w' = token_details w ∧
  token_security w' = token_security w ∧
  pp_sol_balance (portfolio w') = pp_sol_balance (portfolio w) ∧
  pp_tokens (portfolio w') = pp_tokens (portfolio w) ∧
  ib_balance (info_bar w') = ib_balance (info_bar w) ∧
  ((halt = HaltNoDevice ∨ halt = HaltSelectUsb ∨ halt = HaltNotMounted ∨
    halt = HaltNoKeyFile) ∧
   current_public_key (app_attrs w') = current_public_key (app_attrs w) ∨
   (halt = HaltDisconnected ∨ halt = HaltNoBalance) ∧
   ∃ (mount_point pubkey : string),
     usb_mount_point (app_attrs w') = Some mount_point ∧
     read_pubkey env mount_point = Some pubkey ∧
     current_public_key (app_attrs w') = Some pubkey).
Proof.
  unfold _fetch_wallet_data. intros Hrun Hhalt.
  destruct (detect_usb_devices env) as [|d0 ds] eqn:Hdev.
  { injection Hrun as <- <-. cbn. repeat split; try done. left. split; [tauto|done]. }
  destruct (pick_device _ _) as [[device selected]|] eqn:Hpick.
  2:{ injection Hrun as <- <-. cbn. repeat split; try done. left. split; [tauto|done]. }
  set (w1 := _update_status_bar _ _) in Hrun.
  assert (Hframe : detected_devices (app_attrs w1) = d0 :: ds ∧
     current_balance (app_attrs w1) = current_balance (app_attrs w) ∧
     current_tokens (app_attrs w1) = current_tokens (app_attrs w) ∧
     current_public_key (app_attrs w1) = current_public_key (app_attrs w) ∧
     history w1 = history w ∧ send_panel w1 = send_panel w ∧
     token_details w1 = token_details w ∧ token_security w1 = token_security w ∧
     portfolio w1 = portfolio w ∧ info_bar w1 = info_bar w).
  { unfold w1. repeat case_match; cbn; done. }
  clearbody w1. destruct Hframe as (F1 & F2 & F3 & F4 & F5 & F6 & F7 & F8 & F9 & F10).
  destruct (usb_mount_point (app_attrs w1)) as [mp|] eqn:Hmp.
  2:{ injection Hrun as <- <-. repeat split; try congruence. left. split; [tauto|done]. }
  destruct (String.eqb mp "") eqn:Hmpe.
  { injection Hrun as <- <-. repeat split; try congruence. left. split; [tauto|done]. }
  destruct (read_pubkey env mp) as [pubkey|] eqn:Hkey.
  2:{ injection Hrun as <- <-. repeat split; try congruence. left. split; [tauto|done]. }
  destruct (negb (is_connected (network env))).
  { injection Hrun as <- <-. cbn. rewrite ?F9, ?F10. repeat split; try congruence.
    right. split; [tauto|]. exists mp, pubkey. done. }
  destruct (get_balance (network env) pubkey) as [balance|].
  2:{ injection Hrun as <- <-. cbn. rewrite ?F9, ?F10. repeat split; try congruence.
    right. split; [tauto|]. exists mp, pubkey. done. }
  destruct (get_transaction_history _ _ _); injection Hrun as <- <-; done.
Qed.

(** A cycle that finds no device halts at the device stage and replaces
    the device list committed before by the empty list. *)
Lemma poll_without_device_empties_device_list :
  detected_devices (app_attrs sample_wallet) = [sample_device0] ∧
  snd (_fetch_wallet_data sample_py (sample_env true []) sample_wallet)
    = HaltNoDevice ∧
  detected_devices
    (app_attrs (fst (_fetch_wallet_data sample_py (sample_env true []) sample_wallet)))
    = [] ∧
  dp_devices
    (device_panel (fst (_fetch_wallet_data sample_py (sample_env true []) sample_wallet)))
    = [].
Proof. repeat split; vm_compute; reflexivity. Qed.

Lemma poll_failure_keeps_later_stages_witness :
  detected_devices
    (app_attrs (fst (_fetch_wallet_data sample_py
                       (sample_env false [sample_device0]) sample_wallet)))
    = detect_usb_devices (sample_env false [sample_device0]) ∧
  current_balance
    (app_attrs (fst (_fetch_wallet_data sample_py
                       (sample_env false [sample_device0]) sample_wallet)))
    = current_balance (app_attrs sample_wallet) ∧
  current_tokens
    (app_attrs (fst (_fetch_wallet_data sample_py
                       (sample_env false [sample_device0]) sample_wallet)))
    = current_tokens (app_attrs sample_wallet).
Proof.
  destruct (poll_failure_keeps_later_stages sample_py
              (sample_env false [sample_device0]) sample_wallet
              (fst (_fetch_wallet_data sample_py
                      (sample_env false [sample_device0]) sample_wallet))
              HaltDisconnected) as (H1 & H2 & H3 & _).
  - vm_compute. reflexivity.
  - discriminate.
  - exact (conj H1 (conj H2 H3)).
Defined.

(** The token stage is not among the stages that halt the cycle: when the
    token-account request fails, the empty list it yields is committed. *)
Example poll_token_failure_commits_empty_list :
  current_tokens
    (app_attrs
       (fst (_fetch_wallet_data sample_py
               {| network := sample_network true;
                  detect_usb_devices := [sample_device0];
                  now := 100%Q;
                  mount_device := fun _ => None;
                  read_pubkey := sample_read_pubkey;
                  token_accounts_rpc := sample_token_rpc true |}
               sample_wallet)))
  = [] ∧
  length (current_tokens (app_attrs sample_wallet)) = 4%nat.
Proof. split; vm_compute; reflexivity. Qed.

(** ** Device selection *)



(** Unmounting clears the key, the balance and the tokens held by the
    application object, and leaves the panels and the transaction list. *)
Lemma unmount_clears_app_fields (w : wallet) :
  truthy (usb_mount_point (app_attrs w)) = true →
  current_public_key (app_attrs (fst (action_unmount false w))) = None ∧
  current_balance (app_attrs (fst (action_unmount false w))) = 0%Q ∧
  current_tokens (app_attrs (fst (action_unmount false w))) = [] ∧
  did_unmount (app_attrs (fst (action_unmount false w))) = true ∧
  history (fst (action_unmount false w)) = history w ∧
  portfolio (fst (action_unmount false w)) = portfolio w ∧
  snd (action_unmount false w) = [Notify "Wallet unmounted"; ExitApp].
Proof. unfold action_unmount. intros ->. repeat split. Qed.

(** ** Page size and fetches *)

Lemma press_load_more_effect (w : wallet) :
  page_size (history (fst (press_load_more w))) = page_size (history w) + 5 ∧
  transactions (history (fst (press_load_more w))) = transactions (history w) ∧
  snd (press_load_more w) =
    if truthy (current_public_key (app_attrs w)) then
      match last (transactions (history w)) with
      | Some oldest =>
          Some (RunFetchMoreTxs (get_signature oldest) (transactions (history w)))
      | None => None
      end
    else None.
Proof.
  unfold press_load_more, on_transaction_history_panel_load_more. simpl.
  split; [done|]. split; [done|].
  by destruct (truthy (current_public_key (app_attrs w))).
Qed.

(** C9, as the code has it.  Advancing the selection grows the page by 5
    only while cached entries remain beyond the window, and posts no
    request.  The load-more button is displayed only while cached entries
    remain beyond the window; its press grows the page by 5 and always
    posts the request, which starts a fetch whenever a public key is
    loaded and the list is not empty. *)
Theorem page_growth_and_fetch :
  (∀ h : TransactionHistoryPanel,
     transactions (TransactionHistoryPanel_action_select_next h) = transactions h ∧
     (page_size (TransactionHistoryPanel_action_select_next h) = page_size h ∨
      page_size (TransactionHistoryPanel_action_select_next h) = page_size h + 5 ∧
      page_size h < Z.of_nat (length (transactions h)))) ∧
  (∀ w : wallet,
     snd (history_key TransactionHistoryPanel_action_select_next w) = None) ∧
  (∀ h : TransactionHistoryPanel,
     load_more_button_displayed h = true →
     page_size h < Z.of_nat (length (transactions h))) ∧
  (∀ w : wallet,
     page_size (history (fst (press_load_more w))) = page_size (history w) + 5 ∧
     transactions (history (fst (press_load_more w))) = transactions (history w) ∧
     snd (press_load_more w) =
       if truthy (current_public_key (app_attrs w)) then
         match last (transactions (history w)) with
         | Some oldest =>
             Some (RunFetchMoreTxs (get_signature oldest) (transactions (history w)))
         | None => None
         end
       else None).
Proof.
  split; [|split; [|split]].
  - intros h. unfold TransactionHistoryPanel_action_select_next.
    destruct (_ <? Z.max _ _); simpl; [|by split; [|left]].
    split; [done|].
    destruct (Z.leb_spec (page_size h) (th_selected_index h + 1)); simpl; [|by left].
    destruct (Z.ltb_spec (page_size h) (Z.of_nat (length (transactions h))));
      [by right|by left].
  - done.
  - intros h. unfold load_more_button_displayed.
    destruct (transactions h); [done|]. by intros ?%Z.ltb_lt.
  - apply press_load_more_effect.
Qed.

(** With ten entries cached and a window of five, the button is displayed
    and its press starts a fetch from the oldest cached entry, although
    five cached entries were still outside the window. *)
Lemma load_more_press_fetches_with_cache_left :
  load_more_button_displayed (history sample_wallet) = true ∧
  page_size (history sample_wallet) = 5 ∧
  length (transactions (history sample_wallet)) = 10%nat ∧
  page_size (history (fst (press_load_more sample_wallet))) = 10 ∧
  snd (press_load_more sample_wallet)
    = Some (RunFetchMoreTxs (VStr "sig10") (transactions (history sample_wallet))).
Proof.
  split; [vm_compute; reflexivity|].
  split; [vm_compute; reflexivity|].
  split; [vm_compute; reflexivity|].
  destruct (press_load_more_effect sample_wallet) as (Hsize & _ & ->).
  split; [rewrite Hsize; vm_compute; reflexivity|].
  assert (truthy (current_public_key (app_attrs sample_wallet)) = true) as ->
    by (vm_compute; reflexivity).
  assert (get_signature <$> last (transactions (history sample_wallet))
          = Some (VStr "sig10")) as Hlast by (vm_compute; reflexivity).
  destruct (last (transactions (history sample_wallet))) as [oldest|]; [|done].
  by injection Hlast as ->.
Qed.

(** ** The send flow *)

Lemma Qlt_bool_false (x y : Q) : Qlt_bool x y = false ↔ (y <= x)%Q.
Proof.
  unfold Qlt_bool. rewrite negb_false_iff. apply Qle_bool_iff.
Qed.




(** Whatever the sign of the amount, the confirm handler starts the worker
    once the other checks pass. *)
Lemma send_requested_ignores_sign (py : builtins) (validate : string → bool)
    (w : wallet) (amount : Q) :
  wallet_password (send_panel w) ≠ "" →
  validate (strip py (to_address (send_panel w))) = true →
  float py (strip py (amount_input (send_panel w))) = Some amount →
  (amount + fee_estimate <= current_balance (app_attrs w))%Q →
  truthy (usb_mount_point (app_attrs w)) = true →
  truthy (current_public_key (app_attrs w)) = true →
  snd (on_live_send_panel_send_requested py validate w)
    = Some (RunDoSend (strip py (to_address (send_panel w))) amount
              (wallet_password (send_panel w))).
Proof.
  intros Hpw Hv Hf Hbal Hm Hk. unfold on_live_send_panel_send_requested.
  destruct (String.eqb_spec (wallet_password (send_panel w)) ""); [done|].
  rewrite Hv, Hf. simpl.
  apply Qlt_bool_false in Hbal. rewrite Hbal, Hm, Hk. done.
Qed.

(** C1 on the code.  With a balance of 1, the Send button opens the
    confirmation step for the amount 0.5; the amount field is then edited
    to 0 and Confirm Send is pressed: the checks pass, the worker is
    started with the amount 0, and it loads the key container and hands it
    to the signer. *)
Theorem send_flow_signs_zero_amount :
  current_balance (app_attrs sample_wallet) = 1%Q ∧
  _confirming
    (send_panel
       (fst (send_run sample_py (validate_address sample_send_env)
               (take 3 zero_amount_events) sample_wallet))) = true ∧
  snd (send_run sample_py (validate_address sample_send_env)
         zero_amount_events sample_wallet)
    = [RunDoSend sample_recipient 0 "secret"] ∧
  calls (_do_send sample_send_env
           (fst (send_run sample_py (validate_address sample_send_env)
                   zero_amount_events sample_wallet))
           sample_recipient 0 "secret")
    = [CallBlockhash; CallBuild 0;
       CallLoadContainer "/media/cold0/wallet/keypair.json" "secret";
       CallSign "secret"; CallBroadcast] ∧
  reaches_signing
    (_do_send sample_send_env
       (fst (send_run sample_py (validate_address sample_send_env)
               zero_amount_events sample_wallet))
       sample_recipient 0 "secret") = true.
Proof. repeat split; vm_compute; reflexivity. Qed.

(** The same edit caught by the first gate: with the amount 0 in the
    field, the Send button does not open the confirmation step. *)
Example send_button_rejects_zero_amount :
  _confirming
    (send_panel
       (fst (send_run sample_py (validate_address sample_send_env)
               [TypeAddress sample_recipient; TypeAmount "0"; Press BtnSend]
               sample_wallet))) = false ∧
  review_box
    (send_panel
       (fst (send_run sample_py (validate_address sample_send_env)
               [TypeAddress sample_recipient; TypeAmount "0"; Press BtnSend]
               sample_wallet)))
    = ReviewMsg "[red]Amount must be greater than 0[/red]".
Proof. split; vm_compute; reflexivity. Qed.

(** * Further properties of the code *)

(** ** Enrichment: fee and entries without a direction *)

(** X1. Whenever the detail of an entry is fetched, its fee is recorded in
    native units, whatever the direction and whoever the owner is. *)
Theorem enrich_records_fee (details : value → outcome tx_detail)
    (txs : list tx_entry) (pubkey : option string) (i : nat) (tx : tx_entry)
    (sig : value) (d : tx_detail) :
  txs !! i = Some tx →
  tx !! "signature" = Some sig →
  details sig = Returned d →
  ∃ entry : tx_entry,
    _enrich_transactions details txs pubkey !! i = Some entry ∧
    entry !! "fee_sol" = Some (VNum (lamports_to_sol (fee d))) ∧
    (lamports_to_sol (fee d) == inject_Z (fee d) / inject_Z 1000000000)%Q.
Proof.
  intros Hi Hsig Hd. eexists. split.
  { rewrite enrich_transactions_lookup, Hi. reflexivity. }
  split; [|apply lamports_to_sol_native].
  unfold enrich_entry. rewrite Hsig, Hd. unfold enrich_with_detail.
  apply lookup_insert_eq.
Qed.

Lemma enrich_records_fee_witness :
  ∃ entry : tx_entry,
    _enrich_transactions sample_details sample_batch None !! 1%nat = Some entry ∧
    entry !! "fee_sol" = Some (VNum (lamports_to_sol (fee sample_detail_received))) ∧
    (lamports_to_sol (fee sample_detail_received)
       == inject_Z (fee sample_detail_received) / inject_Z 1000000000)%Q.
Proof.
  apply (enrich_records_fee sample_details sample_batch None 1 sample_tx_received
           (VStr "sigB") sample_detail_received); reflexivity.
Defined.

(** X2. When the owner is not among the account keys, or one of the
    balance arrays does not reach the owner's position, the entry is the
    raw entry with the fee added: no direction and no amount is written. *)
Theorem enrich_without_owner_balance (details : value → outcome tx_detail)
    (txs : list tx_entry) (pubkey : option string) (i : nat) (tx : tx_entry)
    (sig : value) (d : tx_detail) :
  txs !! i = Some tx →
  tx !! "signature" = Some sig →
  details sig = Returned d →
  (index pubkey (account_keys d) = None ∨
   ∃ idx : nat, index pubkey (account_keys d) = Some idx ∧
     (length (preBalances d) ≤ idx ∨ length (postBalances d) ≤ idx)%nat) →
  _enrich_transactions details txs pubkey !! i
    = Some (<["fee_sol" := VNum (lamports_to_sol (fee d))]> tx) ∧
  (<["fee_sol" := VNum (lamports_to_sol (fee d))]> tx) !! "direction"
    = tx !! "direction" ∧
  (<["fee_sol" := VNum (lamports_to_sol (fee d))]> tx) !! "sol_delta"
    = tx !! "sol_delta".
Proof.
  intros Hi Hsig Hd Hown. split; [|by rewrite !lookup_insert_ne].
  rewrite enrich_transactions_lookup, Hi. simpl. f_equal.
  unfold enrich_entry. rewrite Hsig, Hd. unfold enrich_with_detail.
  destruct Hown as [-> | (idx & -> & Hshort)]; [done|].
  destruct Hshort as [Hs|Hs].
  - assert ((idx <? length (preBalances d))%nat = false) as ->
      by (apply Nat.ltb_ge; lia). done.
  - assert ((idx <? length (postBalances d))%nat = false) as ->
      by (apply Nat.ltb_ge; lia). by rewrite andb_false_r.
Qed.

Lemma enrich_without_owner_balance_witness :
  _enrich_transactions sample_details sample_batch (Some "Stranger") !! 0%nat
    = Some (<["fee_sol" := VNum (lamports_to_sol (fee sample_detail_sent))]>
              sample_tx_sent) ∧
  (<["fee_sol" := VNum (lamports_to_sol (fee sample_detail_sent))]> sample_tx_sent)
    !! "direction" = sample_tx_sent !! "direction" ∧
  (<["fee_sol" := VNum (lamports_to_sol (fee sample_detail_sent))]> sample_tx_sent)
    !! "sol_delta" = sample_tx_sent !! "sol_delta".
Proof.
  apply (enrich_without_owner_balance sample_details sample_batch (Some "Stranger") 0
           sample_tx_sent (VStr "sigA") sample_detail_sent);
    [reflexivity | reflexivity | reflexivity | left; reflexivity].
Defined.

(** ** The history panel: selection and page *)



Lemma py_index_in_range {A} (l : list A) (i : Z) :
  0 ≤ i < Z.of_nat (length l) → py_index l i = l !! Z.to_nat i ∧ is_Some (l !! Z.to_nat i).
Proof.
  intros Hi. unfold py_index.
  destruct (Z.leb_spec 0 i); [|lia]. split; [done|].
  apply lookup_lt_is_Some. lia.
Qed.

(** X4. While the selected row is within the list, asking for the selected
    signature never fails: the answer is [None] on an empty list and the
    signature of the selected entry otherwise. *)
Theorem get_selected_signature_in_range (h : TransactionHistoryPanel) :
  history_selection_ok h →
  ∃ v : value,
    get_selected_signature h = Some v ∧
    (transactions h = [] → v = VNone) ∧
    (transactions h ≠ [] →
       ∃ tx : tx_entry,
         transactions h !! Z.to_nat (th_selected_index h) = Some tx ∧
         v = get_signature tx).
Proof.
  unfold history_selection_ok, get_selected_signature. intros [Hlo Hhi].
  destruct (transactions h) as [|t l] eqn:Htxs.
  - exists VNone. by repeat split.
  - destruct (py_index_in_range (t :: l) (th_selected_index h)) as [-> [tx Htx]].
    { simpl length in *. lia. }
    exists (get_signature tx). rewrite Htx. split; [done|]. split; [done|].
    intros _. by exists tx.
Qed.

Lemma get_selected_signature_in_range_witness :
  ∃ v : value,
    get_selected_signature (history sample_wallet) = Some v ∧
    (transactions (history sample_wallet) = [] → v = VNone) ∧
    (transactions (history sample_wallet) ≠ [] →
       ∃ tx : tx_entry,
         transactions (history sample_wallet)
           !! Z.to_nat (th_selected_index (history sample_wallet)) = Some tx ∧
         v = get_signature tx).
Proof.
  apply (get_selected_signature_in_range (history sample_wallet)).
  unfold history_selection_ok. vm_compute. split; discriminate.
Defined.

(** X5. The arrow keys keep the selected row within the displayed page:
    moving down onto the first hidden row grows the page first. *)
Theorem selection_visible_kept (h : TransactionHistoryPanel) :
  selection_visible h →
  selection_visible (TransactionHistoryPanel_action_select_prev h) ∧
  selection_visible (TransactionHistoryPanel_action_select_next h).
Proof.
  unfold selection_visible. intros [Hlo Hhi]. split.
  - unfold TransactionHistoryPanel_action_select_prev.
    destruct (Z.ltb_spec 0 (th_selected_index h)); simpl; lia.
  - unfold TransactionHistoryPanel_action_select_next.
    destruct (Z.ltb_spec (th_selected_index h)
                (Z.max 0 (Z.of_nat (length (transactions h)) - 1))); simpl; [|lia].
    destruct (Z.leb_spec (page_size h) (th_selected_index h + 1)); simpl; [|lia].
    destruct (Z.ltb_spec (page_size h) (Z.of_nat (length (transactions h)))); lia.
Qed.

Lemma selection_visible_kept_witness :
  selection_visible (TransactionHistoryPanel_action_select_prev (history sample_wallet)) ∧
  selection_visible (TransactionHistoryPanel_action_select_next (history sample_wallet)).
Proof.
  apply (selection_visible_kept (history sample_wallet)).
  unfold selection_visible. vm_compute. split; [discriminate|reflexivity].
Defined.

(** ** Load more: the page that arrives and the fetch that fails *)

Lemma enrich_transactions_length details (txs : list tx_entry) pubkey :
  length (_enrich_transactions details txs pubkey) = length txs.
Proof. rewrite enrich_transactions_map. apply length_map. Qed.

(** X6. When the fetch started by the load-more button returns a page, the
    enriched page is appended to the held list, the selected row stays
    where it was, and the page size is back to 5: the growth made by the
    press is undone. *)
Theorem load_more_page_arrives (net : SolanaNetwork) (w : wallet)
    (oldest t : tx_entry) (page : list tx_entry) :
  truthy (current_public_key (app_attrs w)) = true →
  last (transactions (history w)) = Some oldest →
  getSignaturesForAddress net (current_public_key (app_attrs w)) 10
    (get_signature oldest) = Returned (t :: page) →
  history_selection_ok (history w) →
  transactions (history (load_more net w))
    = transactions (history w)
      ++ _enrich_transactions (get_transaction_details net) (t :: page)
           (current_public_key (app_attrs w)) ∧
  length (transactions (history (load_more net w)))
    = (length (transactions (history w)) + S (length page))%nat ∧
  th_selected_index (history (load_more net w)) = th_selected_index (history w) ∧
  page_size (history (load_more net w)) = 5.
Proof.
  intros Hk Hlast Hrpc [Hlo Hhi].
  unfold load_more, press_load_more, on_transaction_history_panel_load_more. simpl.
  rewrite Hk, Hlast. simpl. unfold _fetch_more_txs. simpl. rewrite Hrpc.
  set (combined := transactions (history w) ++ _).
  assert (length combined
          = (length (transactions (history w)) + S (length page))%nat) as Hlen.
  { unfold combined. rewrite length_app, enrich_transactions_length. done. }
  split; [apply update_txs_transactions|].
  split; [by rewrite update_txs_transactions|].
  unfold _update_txs. simpl. case_decide as Heq.
  { exfalso. rewrite <- Heq in Hlen. lia. }
  simpl. split; [|done].
  destruct (Z.leb_spec (Z.of_nat (length combined)) (th_selected_index (history w)));
    [|done].
  rewrite Hlen in *. lia.
Qed.

Lemma load_more_page_arrives_witness :
  transactions (history (load_more (sample_network true) sample_wallet))
    = transactions (history sample_wallet)
      ++ _enrich_transactions (get_transaction_details (sample_network true))
           (raw_tx "sig11" 200 :: [raw_tx "sig12" 190; raw_tx "sig13" 180])
           (current_public_key (app_attrs sample_wallet)) ∧
  length (transactions (history (load_more (sample_network true) sample_wallet)))
    = (length (transactions (history sample_wallet)) + 3)%nat ∧
  th_selected_index (history (load_more (sample_network true) sample_wallet))
    = th_selected_index (history sample_wallet) ∧
  page_size (history (load_more (sample_network true) sample_wallet)) = 5.
Proof.
  apply (load_more_page_arrives (sample_network true) sample_wallet
           (raw_tx "sig10" 210) (raw_tx "sig11" 200)
           [raw_tx "sig12" 190; raw_tx "sig13" 180]).
  - vm_compute. reflexivity.
  - vm_compute. reflexivity.
  - vm_compute. reflexivity.
  - unfold history_selection_ok. vm_compute. split; discriminate.
Defined.

(** X7. A load-more that cannot fetch (no public key, nothing held, a
    request that fails or returns nothing) changes the page size only: the
    list, the selection and everything else stay as they were. *)
Theorem load_more_without_page (net : SolanaNetwork) (w : wallet) :
  (truthy (current_public_key (app_attrs w)) = false ∨
   transactions (history w) = [] ∨
   ∀ before : value,
     match getSignaturesForAddress net (current_public_key (app_attrs w)) 10 before with
     | Returned (_ :: _) => False
     | _ => True
     end) →
  load_more net w
    = set_history
        {| transactions := transactions (history w);
           page_size := page_size (history w) + 5;
           th_selected_index := th_selected_index (history w) |} w.
Proof.
  intros Hcase.
  unfold load_more, press_load_more, on_transaction_history_panel_load_more. simpl.
  destruct (truthy (current_public_key (app_attrs w))) eqn:Hk; simpl; [|done].
  destruct (last (transactions (history w))) as [oldest|] eqn:Hlast; simpl; [|done].
  destruct Hcase as [Hc | [Hc | Hc]]; [done| by rewrite Hc in Hlast |].
  unfold _fetch_more_txs. simpl. specialize (Hc (get_signature oldest)).
  destruct (getSignaturesForAddress net _ _ _) as [[|t page]| |e]; done.
Qed.

Lemma load_more_without_page_witness :
  load_more (sample_network false) sample_wallet
    = set_history
        {| transactions := transactions (history sample_wallet);
           page_size := page_size (history sample_wallet) + 5;
           th_selected_index := th_selected_index (history sample_wallet) |}
        sample_wallet.
Proof.
  apply (load_more_without_page (sample_network false) sample_wallet).
  right. right. intros before. exact I.
Defined.

(** ** The send worker and the send form *)








(** ** The poll cycle: device choice, completion, mount attempts *)

Lemma Qlt_bool_false' (x y : Q) : (y <= x)%Q → Qlt_bool x y = false.
Proof. intros H. unfold Qlt_bool. apply negb_false_iff. by apply Qle_bool_iff. Qed.

Lemma commit_tokens_app_attrs (tokens : list token_balance) (w : wallet) :
  app_attrs (commit_tokens tokens w) = set_current_tokens tokens (app_attrs w).
Proof.
  unfold commit_tokens, _update_tokens.
  match goal with |- context [_apply_token_selection ?i ?w0] =>
    destruct (apply_token_selection_resolved i w0) as (_ & _ & _ & ->)
  end. done.
Qed.

Lemma apply_token_selection_frame (index : Z) (w : wallet) :
  status_bar (_apply_token_selection index w) = status_bar w ∧
  info_bar (_apply_token_selection index w) = info_bar w ∧
  history (_apply_token_selection index w) = history w ∧
  send_panel (_apply_token_selection index w) = send_panel w ∧
  device_panel (_apply_token_selection index w) = device_panel w ∧
  (td_sol_balance (token_details (_apply_token_selection index w))
     = td_sol_balance (token_details w) ∨
   td_sol_balance (token_details (_apply_token_selection index w))
     = current_balance (app_attrs w)).
Proof.
  unfold _apply_token_selection. repeat case_match; simpl; repeat split; auto.
Qed.

Lemma commit_tokens_frame (tokens : list token_balance) (w : wallet) :
  status_bar (commit_tokens tokens w) = status_bar w ∧
  info_bar (commit_tokens tokens w) = info_bar w ∧
  history (commit_tokens tokens w) = history w ∧
  send_panel (commit_tokens tokens w) = send_panel w ∧
  device_panel (commit_tokens tokens w) = device_panel w ∧
  pp_sol_balance (portfolio (commit_tokens tokens w)) = pp_sol_balance (portfolio w) ∧
  pp_public_key (portfolio (commit_tokens tokens w)) = pp_public_key (portfolio w) ∧
  (td_sol_balance (token_details (commit_tokens tokens w))
     = td_sol_balance (token_details w) ∨
   td_sol_balance (token_details (commit_tokens tokens w))
     = current_balance (app_attrs w)).
Proof.
  unfold commit_tokens, _update_tokens.
  match goal with |- context [_apply_token_selection ?i ?w0] =>
    destruct (apply_token_selection_frame i w0) as (-> & -> & -> & -> & -> & Htd);
    destruct (apply_token_selection_resolved i w0) as (_ & _ & -> & _)
  end.
  repeat split; try done.
Qed.

Lemma update_txs_frame (txs : list tx_entry) (w : wallet) :
  status_bar (_update_txs txs w) = status_bar w ∧
  info_bar (_update_txs txs w) = info_bar w ∧
  portfolio (_update_txs txs w) = portfolio w ∧
  token_details (_update_txs txs w) = token_details w ∧
  send_panel (_update_txs txs w) = send_panel w ∧
  device_panel (_update_txs txs w) = device_panel w.
Proof. unfold _update_txs. by case_decide. Qed.

(** X11. With two or more devices and no selection, or a selection beyond
    the list, the cycle halts with the mode SELECT USB: it commits the
    device list and touches nothing else of the application object, so no
    device is mounted and no key is read. *)
Theorem poll_selection_required (py : builtins) (env : poll_env) (w : wallet) :
  (2 ≤ length (detect_usb_devices env))%nat →
  (selected_device_index (app_attrs w) = None ∨
   ∃ i : nat, selected_device_index (app_attrs w) = Some i ∧
     (length (detect_usb_devices env) ≤ i)%nat) →
  snd (_fetch_wallet_data py env w) = HaltSelectUsb ∧
  mode (status_bar (fst (_fetch_wallet_data py env w))) = "SELECT USB" ∧
  app_attrs (fst (_fetch_wallet_data py env w))
    = set_detected_devices (detect_usb_devices env) (app_attrs w) ∧
  dp_devices (device_panel (fst (_fetch_wallet_data py env w)))
    = detect_usb_devices env.
Proof.
  intros Hlen Hsel. unfold _fetch_wallet_data.
  destruct (detect_usb_devices env) as [|d0 [|d1 ds]] eqn:Hdev;
    [simpl in Hlen; lia..|].
  assert (pick_device (d0 :: d1 :: ds)
            (selected_device_index
               (app_attrs (_update_devices (d0 :: d1 :: ds)
                  (_update_network_status (is_connected (network env)) w)))) = None)
    as ->.
  { unfold pick_device. cbn [_update_devices _update_network_status app_attrs
      set_app_attrs set_device_panel set_status_bar set_detected_devices
      selected_device_index].
    destruct Hsel as [-> | (i & -> & Hi)]; [done|].
    assert ((length (d0 :: d1 :: ds) <=? i)%nat = true) as ->
      by (apply Nat.leb_le; lia). done. }
  done.
Qed.

Lemma poll_selection_required_witness :
  snd (_fetch_wallet_data sample_py (sample_env true [sample_device0; sample_device1])
         initial_wallet) = HaltSelectUsb ∧
  mode (status_bar
          (fst (_fetch_wallet_data sample_py
                  (sample_env true [sample_device0; sample_device1]) initial_wallet)))
    = "SELECT USB" ∧
  app_attrs (fst (_fetch_wallet_data sample_py
                    (sample_env true [sample_device0; sample_device1]) initial_wallet))
    = set_detected_devices
        (detect_usb_devices (sample_env true [sample_device0; sample_device1]))
        (app_attrs initial_wallet) ∧
  dp_devices
    (device_panel
       (fst (_fetch_wallet_data sample_py
               (sample_env true [sample_device0; sample_device1]) initial_wallet)))
    = detect_usb_devices (sample_env true [sample_device0; sample_device1]).
Proof.
  apply (poll_selection_required sample_py
           (sample_env true [sample_device0; sample_device1]) initial_wallet).
  - simpl. lia.
  - left. reflexivity.
Defined.

(** X12. With exactly one device the cycle selects it, whatever was
    selected before: the selected index becomes 0, the cycle does not halt
    for want of a device or of a selection, and the status bar carries the
    label of that device. *)
Theorem poll_single_device_selected (py : builtins) (env : poll_env) (w : wallet)
    (device : usb_device) :
  detect_usb_devices env = [device] →
  selected_device_index (app_attrs (fst (_fetch_wallet_data py env w))) = Some 0%nat ∧
  snd (_fetch_wallet_data py env w) ≠ HaltNoDevice ∧
  snd (_fetch_wallet_data py env w) ≠ HaltSelectUsb ∧
  wallet_name (status_bar (fst (_fetch_wallet_data py env w))) = wallet_label py device.
Proof.
  intros Hdev. unfold _fetch_wallet_data. rewrite Hdev.
  cbn [pick_device].
  set (w1 := _update_status_bar _ _).
  assert (selected_device_index (app_attrs w1) = Some 0%nat ∧
          wallet_name (status_bar w1) = wallet_label py device) as [Hs Hn].
  { unfold w1. repeat case_match; done. }
  clearbody w1.
  destruct (usb_mount_point (app_attrs w1)) as [mp|]; [|done].
  destruct (String.eqb mp ""); [done|].
  destruct (read_pubkey env mp) as [pubkey|]; [|done].
  destruct (negb (is_connected (network env))); [done|].
  destruct (get_balance (network env) pubkey) as [balance|]; [|done].
  set (tokens := get_all_token_balances _ _).
  set (w2 := _update_balance _ _).
  destruct (commit_tokens_frame tokens w2) as (Hsb & _).
  destruct (get_transaction_history _ _ _) as [|t0 txs0]; cbn [fst snd].
  - rewrite commit_tokens_app_attrs, Hsb. done.
  - destruct (update_txs_frame
                (_enrich_transactions (get_transaction_details (network env))
                   (t0 :: txs0) (Some pubkey)) (commit_tokens tokens w2)) as (-> & _).
    rewrite update_txs_app_fields, commit_tokens_app_attrs, Hsb. done.
Qed.

Lemma poll_single_device_selected_witness :
  selected_device_index
    (app_attrs (fst (_fetch_wallet_data sample_py (sample_env true [sample_device1])
                       sample_wallet_second_device))) = Some 0%nat ∧
  snd (_fetch_wallet_data sample_py (sample_env true [sample_device1])
         sample_wallet_second_device) ≠ HaltNoDevice ∧
  snd (_fetch_wallet_data sample_py (sample_env true [sample_device1])
         sample_wallet_second_device) ≠ HaltSelectUsb ∧
  wallet_name
    (status_bar (fst (_fetch_wallet_data sample_py (sample_env true [sample_device1])
                        sample_wallet_second_device)))
    = wallet_label sample_py sample_device1.
Proof.
  apply (poll_single_device_selected sample_py (sample_env true [sample_device1])
           sample_wallet_second_device sample_device1).
  reflexivity.
Defined.

(** X13. After a cycle that runs to its end, every view agrees with the
    application object: the key read from the device, the balance returned
    for that key and the token list fetched for it are the ones held by
    the application and shown by the info bar, the portfolio, the send
    panel and the detail panel; the status bar reads READY and Connected. *)
Theorem poll_completed_in_sync (py : builtins) (env : poll_env) (w w' : wallet) :
  _fetch_wallet_data py env w = (w', PollCompleted) →
  ∃ (pubkey : string) (balance : Q),
    get_balance (network env) pubkey = Some balance ∧
    is_connected (network env) = true ∧
    current_public_key (app_attrs w') = Some pubkey ∧
    ib_public_key (info_bar w') = pubkey ∧
    pp_public_key (portfolio w') = pubkey ∧
    current_balance (app_attrs w') = balance ∧
    ib_balance (info_bar w') = balance ∧
    pp_sol_balance (portfolio w') = balance ∧
    sp_current_balance (send_panel w') = balance ∧
    td_sol_balance (token_details w') = balance ∧
    current_tokens (app_attrs w')
      = get_all_token_balances (token_accounts_rpc env) pubkey ∧
    pp_tokens (portfolio w') = current_tokens (app_attrs w') ∧
    mode (status_bar w') = "READY" ∧
    network_status (status_bar w') = "Connected".
Proof.
  unfold _fetch_wallet_data. intros Hrun.
  destruct (detect_usb_devices env) as [|d0 ds]; [done|].
  destruct (pick_device _ _) as [[device selected]|]; [|done].
  set (w1 := _update_status_bar _ _) in Hrun.
  assert (mode (status_bar w1) = "READY" ∧
          network_status (status_bar w1)
            = (if is_connected (network env) then "Connected" else "Disconnected"))
    as [Hm Hn].
  { unfold w1. repeat case_match; done. }
  clearbody w1.
  destruct (usb_mount_point (app_attrs w1)) as [mp|]; [|done].
  destruct (String.eqb mp ""); [done|].
  destruct (read_pubkey env mp) as [pubkey|]; [|done].
  destruct (is_connected (network env)) eqn:Hc; [|done]. cbn [negb] in Hrun.
  destruct (get_balance (network env) pubkey) as [balance|] eqn:Hb; [|done].
  exists pubkey, balance.
  set (tokens := get_all_token_balances _ _) in *.
  set (w2 := _update_balance _ _) in Hrun.
  destruct (commit_tokens_frame tokens w2) as (Hsb & Hib & _ & Hsp & _ & Hps & Hpk & Htd).
  destruct (commit_tokens_selection tokens w2) as (Hpt & Hct & _).
  pose proof (commit_tokens_app_attrs tokens w2) as Ha.
  assert (w' = commit_tokens tokens w2 ∨
          ∃ txs, w' = _update_txs txs (commit_tokens tokens w2)) as Hw.
  { destruct (get_transaction_history _ _ _); injection Hrun as <-; eauto. }
  assert (app_attrs w' = app_attrs (commit_tokens tokens w2) ∧
          status_bar w' = status_bar (commit_tokens tokens w2) ∧
          info_bar w' = info_bar (commit_tokens tokens w2) ∧
          portfolio w' = portfolio (commit_tokens tokens w2) ∧
          token_details w' = token_details (commit_tokens tokens w2) ∧
          send_panel w' = send_panel (commit_tokens tokens w2))
    as (-> & -> & -> & -> & -> & ->).
  { destruct Hw as [-> | [txs ->]]; [done|].
    rewrite update_txs_app_fields.
    destruct (update_txs_frame txs (commit_tokens tokens w2))
      as (-> & -> & -> & -> & -> & _). done. }
  rewrite Ha, Hsb, Hib, Hsp, Hps, Hpk, Hpt.
  repeat split; try done.
  destruct Htd as [-> | ->]; done.
Qed.

Lemma poll_completed_in_sync_witness :
  ∃ (pubkey : string) (balance : Q),
    get_balance (network (sample_env true [sample_device0])) pubkey = Some balance ∧
    is_connected (network (sample_env true [sample_device0])) = true ∧
    current_public_key (app_attrs sample_wallet) = Some pubkey ∧
    ib_public_key (info_bar sample_wallet) = pubkey ∧
    pp_public_key (portfolio sample_wallet) = pubkey ∧
    current_balance (app_attrs sample_wallet) = balance ∧
    ib_balance (info_bar sample_wallet) = balance ∧
    pp_sol_balance (portfolio sample_wallet) = balance ∧
    sp_current_balance (send_panel sample_wallet) = balance ∧
    td_sol_balance (token_details sample_wallet) = balance ∧
    current_tokens (app_attrs sample_wallet)
      = get_all_token_balances
          (token_accounts_rpc (sample_env true [sample_device0])) pubkey ∧
    pp_tokens (portfolio sample_wallet) = current_tokens (app_attrs sample_wallet) ∧
    mode (status_bar sample_wallet) = "READY" ∧
    network_status (status_bar sample_wallet) = "Connected".
Proof.
  apply (poll_completed_in_sync sample_py (sample_env true [sample_device0])
           (_set_mode "SYNCING..." initial_wallet) sample_wallet).
  unfold sample_wallet, refresh_data.
  rewrite (surjective_pairing
             (_fetch_wallet_data sample_py (sample_env true [sample_device0])
                (_set_mode "SYNCING..." initial_wallet))) at 1.
  f_equal; vm_compute; reflexivity.
Defined.

(** X14. Mount attempts are rate-limited: within five seconds of the last
    attempt the cycle does not call [mount_device] (its outcome is the same
    whatever that call would answer) and the time of the last attempt is
    left as it was. *)
Theorem poll_mount_rate_limited (py : builtins) (env : poll_env) (w : wallet)
    (mount : option string → option string) :
  (now env - _last_mount_attempt (app_attrs w) <= 5)%Q →
  _fetch_wallet_data py (with_mount_device mount env) w = _fetch_wallet_data py env w ∧
  _last_mount_attempt (app_attrs (fst (_fetch_wallet_data py env w)))
    = _last_mount_attempt (app_attrs w).
Proof.
  intros Hrate. apply Qlt_bool_false' in Hrate.
  unfold _fetch_wallet_data, with_mount_device.
  cbn [network detect_usb_devices now mount_device read_pubkey token_accounts_rpc].
  destruct (detect_usb_devices env) as [|d0 ds]; [by split|].
  destruct (pick_device _ _) as [[device selected]|] eqn:Hpick; [|by split].
  repeat match goal with
  | |- context [Qlt_bool 5 (now env - _last_mount_attempt (app_attrs ?W0))] =>
      progress change (_last_mount_attempt (app_attrs W0))
        with (_last_mount_attempt (app_attrs w))
  end.
  rewrite Hrate. cbv beta iota zeta. split; [done|].
  set (w1 := _update_status_bar _ _).
  assert (_last_mount_attempt (app_attrs w1) = _last_mount_attempt (app_attrs w)) as <-.
  { unfold w1. by destruct (truthy (dev_mountpoint device)). }
  clearbody w1.
  destruct (usb_mount_point (app_attrs w1)) as [mp|]; [|done].
  destruct (String.eqb mp ""); [done|].
  destruct (read_pubkey env mp) as [pubkey|]; [|done].
  destruct (negb (is_connected (network env))); [done|].
  destruct (get_balance (network env) pubkey) as [balance|]; [|done].
  destruct (get_transaction_history _ _ _); simpl;
    rewrite ?update_txs_app_fields, commit_tokens_app_attrs; done.
Qed.

Lemma poll_mount_rate_limited_witness :
  _fetch_wallet_data sample_py
    (with_mount_device (fun _ => Some "/media/cold0") sample_env_early) initial_wallet
    = _fetch_wallet_data sample_py sample_env_early initial_wallet ∧
  _last_mount_attempt
    (app_attrs (fst (_fetch_wallet_data sample_py sample_env_early initial_wallet)))
    = _last_mount_attempt (app_attrs initial_wallet).
Proof.
  apply (poll_mount_rate_limited sample_py sample_env_early initial_wallet
           (fun _ => Some "/media/cold0")).
  vm_compute. discriminate.
Defined.

(** ** Token balances: the table, and ties in the order *)

Lemma find_token_info_Some (table : list (string * known_token)) (m : option string)
    (row : known_token) :
  find_token_info table m = Some row →
  row ∈ table.*2 ∧ m = Some (kt_mint row).
Proof.
  induction table as [|[k d] table IH]; simpl; [done|].
  case_decide as Hd.
  - intros [= ->]. split; [apply list_elem_of_here|done].
  - intros H. destruct (IH H) as [Hin Hm]. split; [by apply list_elem_of_further|done].
Qed.

Lemma find_token_info_None (table : list (string * known_token)) (m : option string) :
  find_token_info table m = None ↔ ∀ row, row ∈ table.*2 → m ≠ Some (kt_mint row).
Proof.
  induction table as [|[k d] table IH]; simpl.
  - split; [intros _ row Hr; by apply elem_of_nil in Hr|done].
  - case_decide as Hd.
    + split; [done|]. intros H. exfalso. apply (H d); [apply list_elem_of_here|done].
    + rewrite IH. split.
      * intros H row Hr. apply elem_of_cons in Hr as [->|Hr]; [done|by apply H].
      * intros H row Hr. apply H. by apply list_elem_of_further.
Qed.

(** X17. A parsed token is marked known exactly when its mint is the mint
    of a row of the table; it then carries the symbol and the icon of such
    a row, and otherwise the symbol "Unknown".  The mint and the decimals
    always come from the account, never from the table. *)
Theorem parse_known_iff_in_table (a : token_account) (b : token_balance) :
  parse_token_balance a = Some b →
  (is_known b = true ↔
   ∃ row : known_token, row ∈ KNOWN_TOKENS.*2 ∧ ta_mint a = Some (kt_mint row)) ∧
  (is_known b = true →
   ∃ row : known_token, row ∈ KNOWN_TOKENS.*2 ∧ ta_mint a = Some (kt_mint row) ∧
     symbol b = kt_symbol row ∧ icon b = kt_icon row) ∧
  (is_known b = false → symbol b = "Unknown") ∧
  mint b = ta_mint a ∧
  decimals b = default 0 (ta_decimals a).
Proof.
  rewrite parse_token_balance_total. intros [= <-]. unfold parsed_entry.
  cbn [is_known symbol icon mint decimals].
  destruct (find_token_info KNOWN_TOKENS (ta_mint a)) as [row|] eqn:Hf.
  - destruct (find_token_info_Some _ _ _ Hf) as [Hin Hm].
    split. { split; [intros _; by exists row|done]. }
    split. { intros _. by exists row. }
    done.
  - split.
    { split; [done|]. intros (row & Hin & Hm). exfalso.
      by apply (proj1 (find_token_info_None _ _) Hf row Hin). }
    done.
Qed.

Lemma parse_known_iff_in_table_witness :
  (is_known (parsed_entry {| ta_mint := Some "DezXAZ8z7PnrnRJjz3wXBoRgixCa6xjnB7YaB1pPB263";
                             ta_uiAmount := UiNumber 3; ta_decimals := Some 9 |}) = true ↔
   ∃ row : known_token, row ∈ KNOWN_TOKENS.*2 ∧
     ta_mint {| ta_mint := Some "DezXAZ8z7PnrnRJjz3wXBoRgixCa6xjnB7YaB1pPB263";
                ta_uiAmount := UiNumber 3; ta_decimals := Some 9 |}
       = Some (kt_mint row)) ∧
  (is_known (parsed_entry {| ta_mint := Some "DezXAZ8z7PnrnRJjz3wXBoRgixCa6xjnB7YaB1pPB263";
                             ta_uiAmount := UiNumber 3; ta_decimals := Some 9 |}) = true →
   ∃ row : known_token, row ∈ KNOWN_TOKENS.*2 ∧
     ta_mint {| ta_mint := Some "DezXAZ8z7PnrnRJjz3wXBoRgixCa6xjnB7YaB1pPB263";
                ta_uiAmount := UiNumber 3; ta_decimals := Some 9 |}
       = Some (kt_mint row) ∧
     symbol (parsed_entry {| ta_mint := Some "DezXAZ8z7PnrnRJjz3wXBoRgixCa6xjnB7YaB1pPB263";
                             ta_uiAmount := UiNumber 3; ta_decimals := Some 9 |})
       = kt_symbol row ∧
     icon (parsed_entry {| ta_mint := Some "DezXAZ8z7PnrnRJjz3wXBoRgixCa6xjnB7YaB1pPB263";
                           ta_uiAmount := UiNumber 3; ta_decimals := Some 9 |})
       = kt_icon row) ∧
  (is_known (parsed_entry {| ta_mint := Some "DezXAZ8z7PnrnRJjz3wXBoRgixCa6xjnB7YaB1pPB263";
                             ta_uiAmount := UiNumber 3; ta_decimals := Some 9 |}) = false →
   symbol (parsed_entry {| ta_mint := Some "DezXAZ8z7PnrnRJjz3wXBoRgixCa6xjnB7YaB1pPB263";
                           ta_uiAmount := UiNumber 3; ta_decimals := Some 9 |})
     = "Unknown") ∧
  mint (parsed_entry {| ta_mint := Some "DezXAZ8z7PnrnRJjz3wXBoRgixCa6xjnB7YaB1pPB263";
                        ta_uiAmount := UiNumber 3; ta_decimals := Some 9 |})
    = ta_mint {| ta_mint := Some "DezXAZ8z7PnrnRJjz3wXBoRgixCa6xjnB7YaB1pPB263";
                 ta_uiAmount := UiNumber 3; ta_decimals := Some 9 |} ∧
  decimals (parsed_entry {| ta_mint := Some "DezXAZ8z7PnrnRJjz3wXBoRgixCa6xjnB7YaB1pPB263";
                            ta_uiAmount := UiNumber 3; ta_decimals := Some 9 |})
    = default 0
        (ta_decimals {| ta_mint := Some "DezXAZ8z7PnrnRJjz3wXBoRgixCa6xjnB7YaB1pPB263";
                        ta_uiAmount := UiNumber 3; ta_decimals := Some 9 |}).
Proof.
  apply (parse_known_iff_in_table
           {| ta_mint := Some "DezXAZ8z7PnrnRJjz3wXBoRgixCa6xjnB7YaB1pPB263";
              ta_uiAmount := UiNumber 3; ta_decimals := Some 9 |}).
  apply parse_token_balance_total.
Defined.

Lemma token_leb_trans (x y z : token_balance) :
  token_leb x y = true → token_leb y z = true → token_leb x z = true.
Proof. apply key_leb_trans. Qed.

(** X18. The sort is stable: the entries that sort alike (same known flag,
    same balance) come out in the order in which the RPC answer lists
    their accounts. *)
Theorem token_ties_keep_rpc_order (post : string → option (list token_account))
    (wallet_address : string) (b0 : token_balance) :
  List.filter (same_sort_key b0) (get_all_token_balances post wallet_address)
  = List.filter (same_sort_key b0)
      (map parsed_entry (get_token_accounts post wallet_address)).
Proof.
  unfold get_all_token_balances. rewrite parse_fold_acc. simpl. rewrite omap_parse.
  apply (stable_sort_stable token_leb token_leb_trans).
Qed.

(** ** The portfolio keys *)

(** X19. At the ends of the list the arrow keys change nothing and select
    nothing (up on the native asset, down on the last token); anywhere
    else, down followed by up brings the portfolio panel back to where it
    was. *)
Theorem portfolio_keys_at_the_ends (w : wallet) :
  selection_in_range (portfolio w) →
  (pp_selected_index (portfolio w) = 0 →
   portfolio_key LivePortfolioPanel_action_select_prev w = w) ∧
  (pp_selected_index (portfolio w) = Z.of_nat (length (pp_tokens (portfolio w))) →
   portfolio_key LivePortfolioPanel_action_select_next w = w) ∧
  (pp_selected_index (portfolio w) < Z.of_nat (length (pp_tokens (portfolio w))) →
   portfolio (portfolio_key LivePortfolioPanel_action_select_prev
                (portfolio_key LivePortfolioPanel_action_select_next w))
     = portfolio w).
Proof.
  intros [Hlo Hhi]. split; [|split].
  - intros H0. unfold portfolio_key, LivePortfolioPanel_action_select_prev.
    rewrite H0. simpl. rewrite H0. simpl. by destruct w.
  - intros Hend. unfold portfolio_key, LivePortfolioPanel_action_select_next.
    rewrite Hend, Z.ltb_irrefl, Hend, Z.eqb_refl. simpl. by destruct w.
  - intros Hlt.
    assert (∀ action w0, portfolio (portfolio_key action w0) = action (portfolio w0))
      as Hkey.
    { intros action w0. unfold portfolio_key. case_match; [|done].
      unfold on_live_portfolio_panel_token_selected.
      match goal with |- context [_apply_token_selection ?i ?w1] =>
        destruct (apply_token_selection_resolved i w1) as (_ & _ & -> & _)
      end. done. }
    rewrite !Hkey.
    unfold LivePortfolioPanel_action_select_prev, LivePortfolioPanel_action_select_next.
    assert ((pp_selected_index (portfolio w)
             <? Z.of_nat (length (pp_tokens (portfolio w)))) = true) as ->
      by (apply Z.ltb_lt; lia).
    simpl.
    assert ((0 <? pp_selected_index (portfolio w) + 1) = true) as ->
      by (apply Z.ltb_lt; lia).
    destruct (portfolio w) as [sb tk pk si]. simpl. f_equal. lia.
Qed.

Lemma portfolio_keys_at_the_ends_witness :
  (pp_selected_index (portfolio sample_wallet) = 0 →
   portfolio_key LivePortfolioPanel_action_select_prev sample_wallet = sample_wallet) ∧
  (pp_selected_index (portfolio sample_wallet)
     = Z.of_nat (length (pp_tokens (portfolio sample_wallet))) →
   portfolio_key LivePortfolioPanel_action_select_next sample_wallet = sample_wallet) ∧
  (pp_selected_index (portfolio sample_wallet)
     < Z.of_nat (length (pp_tokens (portfolio sample_wallet))) →
   portfolio (portfolio_key LivePortfolioPanel_action_select_prev
                (portfolio_key LivePortfolioPanel_action_select_next sample_wallet))
     = portfolio sample_wallet).
Proof.
  apply (portfolio_keys_at_the_ends sample_wallet).
  unfold selection_in_range. vm_compute. split; discriminate.
Defined.

(** ** Airdrops *)



(** X21. The airdrop worker asks for a refresh exactly when the RPC URL is
    a devnet one, a public key is loaded, the request returned a signature
    and that signature was confirmed. *)
Theorem airdrop_refresh_only_when_confirmed (rpc_url : string) (net : airdrop_net)
    (w : wallet) (amount : Q) :
  snd (_do_airdrop rpc_url net w amount) = true ↔
  contains "devnet" rpc_url = true ∧
  ∃ pubkey signature : string,
    current_public_key (app_attrs w) = Some pubkey ∧ pubkey ≠ "" ∧
    request_airdrop net pubkey amount = Some signature ∧ signature ≠ "" ∧
    confirm_transaction net signature = true.
Proof.
  unfold _do_airdrop.
  destruct (contains "devnet" rpc_url); simpl; [|by split; [|intros [? _]]].
  destruct (current_public_key (app_attrs w)) as [pubkey|];
    [|split; [done|]; by intros (_ & ? & ? & ? & _)].
  destruct (String.eqb_spec pubkey "") as [->|Hk].
  { split; [done|]. intros (_ & ? & ? & [= <-] & ? & _). done. }
  destruct (request_airdrop net pubkey amount) as [sig|] eqn:Hr.
  2:{ split; [done|]. intros (_ & ? & ? & [= <-] & _ & ? & _). congruence. }
  destruct (String.eqb_spec sig "") as [->|Hs].
  { split; [done|]. intros (_ & ? & ? & [= <-] & _ & ? & ? & _). congruence. }
  destruct (confirm_transaction net sig) eqn:Hc; simpl.
  - split; [|done]. intros _. split; [done|]. by exists pubkey, sig.
  - split; [done|]. intros (_ & ? & ? & [= <-] & _ & ? & _ & ?). congruence.
Qed.

(** ** Token security *)

(** X22. A report reaches the security panel only on a mainnet RPC URL and
    only from an answer with status 200, given by the first HTTP client
    or, when that one raised, by the second. *)
Theorem fetch_security_report_source (rpc_url : string) (http : http_clients)
    (mint : string) (r : rugcheck_report) :
  _fetch_security rpc_url http mint = SecurityReport r →
  contains "devnet" rpc_url = false ∧ contains "testnet" rpc_url = false ∧
  ∃ response : http_response,
    status_code response = 200 ∧ json response = Returned r ∧
    (httpx_get http ("https://premium.rugcheck.xyz/v1/tokens/" +:+ mint +:+ "/report")
       = Returned response ∨
     (∃ e : string,
        httpx_get http ("https://premium.rugcheck.xyz/v1/tokens/" +:+ mint +:+ "/report")
          = Raised e) ∧
     requests_get http ("https://premium.rugcheck.xyz/v1/tokens/" +:+ mint +:+ "/report")
       = Returned response).
Proof.
  unfold _fetch_security.
  destruct (contains "devnet" rpc_url); [done|].
  destruct (contains "testnet" rpc_url); [done|]. cbn [orb].
  set (url := "https://premium.rugcheck.xyz/v1/tokens/" +:+ mint +:+ "/report").
  assert (∀ resp : outcome http_response,
            match resp with
            | Returned response =>
                if status_code response =? 200
                then match json response with
                     | Returned data => SecurityReport data
                     | Falsy => SecurityEmpty
                     | Raised e => SecurityError (CheckFailed (String.substring 0 30 e))
                     end
                else if (status_code response =? 401) || (status_code response =? 403)
                then SecurityError Auth
                else if status_code response =? 429 then SecurityError RateLimited
                else if status_code response =? 400 then SecurityError UnknownToken
                else SecurityError (ApiError (status_code response))
            | Falsy => SecurityError NoResponse
            | Raised e => SecurityError (CheckFailed (String.substring 0 30 e))
            end = SecurityReport r →
            ∃ response, resp = Returned response ∧ status_code response = 200 ∧
              json response = Returned r) as Hclass.
  { intros [response| |e]; [|done..].
    destruct (Z.eqb_spec (status_code response) 200) as [H200|]; [|by repeat case_match].
    destruct (json response) as [data| |e] eqn:Hj; [|done..].
    intros [= ->]. by exists response. }
  destruct (httpx_get http url) as [response| |e] eqn:Hx.
  - intros H. apply (Hclass (Returned response)) in H as (resp & [= <-] & H200 & Hj).
    split; [done|]. split; [done|]. exists response. auto.
  - done.
  - destruct (requests_get http url) as [response| |e'] eqn:Hq; [|done..].
    intros H. apply (Hclass (Returned response)) in H as (resp & [= <-] & H200 & Hj).
    split; [done|]. split; [done|]. exists response.
    split; [done|]. split; [done|]. right. split; [by exists e|done].
Qed.

Lemma fetch_security_report_source_witness :
  contains "devnet" "https://api.mainnet-beta.solana.com" = false ∧
  contains "testnet" "https://api.mainnet-beta.solana.com" = false ∧
  ∃ response : http_response,
    status_code response = 200 ∧ json response = Returned sample_report ∧
    (httpx_get sample_http
       ("https://premium.rugcheck.xyz/v1/tokens/" +:+ "MintOfSomeToken" +:+ "/report")
       = Returned response ∨
     (∃ e : string,
        httpx_get sample_http
          ("https://premium.rugcheck.xyz/v1/tokens/" +:+ "MintOfSomeToken" +:+ "/report")
          = Raised e) ∧
     requests_get sample_http
       ("https://premium.rugcheck.xyz/v1/tokens/" +:+ "MintOfSomeToken" +:+ "/report")
       = Returned response).
Proof.
  apply (fetch_security_report_source "https://api.mainnet-beta.solana.com"
           sample_http "MintOfSomeToken" sample_report).
  reflexivity.
Defined.

(** ** Portfolio total *)

Lemma fold_left_Qplus_start (l : list Q) (a : Q) :
  (fold_left Qplus l a == a + fold_left Qplus l 0)%Q.
Proof.
  revert a. induction l as [|x l IH]; intros a; simpl.
  - ring.
  - rewrite (IH (a + x)%Q), (IH (0 + x)%Q). ring.
Qed.

Lemma stable_sum_filter (tokens : list token_balance) :
  (fold_left Qplus
     (map (fun t => if String.eqb (symbol t) "USDC" || String.eqb (symbol t) "USDT"
                    then balance t else 0) tokens) 0
   == fold_left Qplus
        (map (fun t => if String.eqb (symbol t) "USDC" || String.eqb (symbol t) "USDT"
                       then balance t else 0) (List.filter is_stablecoin tokens)) 0)%Q.
Proof.
  induction tokens as [|t tokens IH]; [reflexivity|].
  cbn [map fold_left List.filter]. unfold is_stablecoin at 1.
  destruct (String.eqb (symbol t) "USDC" || String.eqb (symbol t) "USDT") eqn:Hs.
  - cbn [map fold_left]. rewrite Hs.
    rewrite fold_left_Qplus_start, IH. symmetry. apply fold_left_Qplus_start.
  - rewrite fold_left_Qplus_start, IH. ring.
Qed.

(** X23. The portfolio total counts the native balance and the tokens
    named USDC or USDT only: dropping every other token from the list
    leaves the total as it is, although a RAY, BONK or JUP holding is
    shown with a positive value on its own row. *)
Theorem total_value_counts_stablecoins_only (p : LivePortfolioPanel) :
  (total_value p == total_value (with_tokens (List.filter is_stablecoin (pp_tokens p)) p))%Q ∧
  ∀ t : token_balance, t ∈ pp_tokens p →
    (symbol t = "RAY" ∨ symbol t = "BONK" ∨ symbol t = "JUP") →
    (0 < balance t)%Q →
    is_stablecoin t = false ∧ (0 < _usd (symbol t) (balance t))%Q.
Proof.
  split.
  - unfold total_value, with_tokens. cbn [pp_sol_balance pp_tokens].
    by rewrite stable_sum_filter.
  - intros t _ Hsym Hpos. unfold is_stablecoin, _usd.
    destruct Hsym as [-> | [-> | ->]]; simpl; (split; [done|]);
      unfold Qlt in *; simpl in *; lia.
Qed.

(** ** Token icons *)

(** X24. A token whose mint the token table does not know gets the symbol
    "Unknown", for which there is no logo: its icon is the empty text on
    every terminal. *)
Theorem unknown_token_has_no_icon (t : terminal_type) (env : logo_env)
    (a : token_account) (b : token_balance) :
  parse_token_balance a = Some b → is_known b = false →
  get_token_icon t env (symbol b) = "".
Proof.
  rewrite parse_token_balance_total. intros [= <-]. unfold parsed_entry.
  cbn [is_known symbol].
  destruct (find_token_info KNOWN_TOKENS (ta_mint a)); [done|]. intros _.
  unfold get_token_icon, fetch_logo. simpl.
  destruct (supports_images t); [|done]. by destruct (imaging_available env).
Qed.

Lemma unknown_token_has_no_icon_witness :
  get_token_icon Kitty sample_logo_env
    (symbol (parsed_entry {| ta_mint := Some "So1vedUnknownMint111111111111111111111111111";
                             ta_uiAmount := UiNumber 0; ta_decimals := Some 9 |})) = "".
Proof.
  apply (unknown_token_has_no_icon Kitty sample_logo_env
           {| ta_mint := Some "So1vedUnknownMint111111111111111111111111111";
              ta_uiAmount := UiNumber 0; ta_decimals := Some 9 |}).
  - apply parse_token_balance_total.
  - reflexivity.
Defined.

(** X25. When the logo of a symbol is in the cache, nothing is downloaded
    (the icon is the same whatever a download would do), and an icon that
    is not empty is the escape sequence of the terminal around the base64
    text of the cached file. *)
Theorem token_icon_cached_needs_no_download (t : terminal_type) (env : logo_env)
    (sym : string) (download : string → string → bool) :
  cache_file_exists env (lower env sym +:+ ".png") = true →
  get_token_icon t (with_download download env) sym = get_token_icon t env sym ∧
  (get_token_icon t env sym ≠ "" →
   ∃ img_data : string,
     read_base64 env (lower env sym +:+ ".png") = Some img_data ∧
     (t = Kitty ∧
      get_token_icon t env sym = ESC +:+ "_Ga=T,f=100,t=f;" +:+ img_data +:+ ESC +:+ "\ "
      ∨
      t = Iterm2 ∧
      get_token_icon t env sym
        = ESC +:+ "]1337;File=inline=1;width=2;height=1:" +:+ img_data +:+ BEL)).
Proof.
  intros Hc. unfold get_token_icon, fetch_logo, with_download.
  cbn [imaging_available lower cache_file_exists download_logo read_base64].
  rewrite Hc. split; [done|].
  destruct t; cbn [supports_images negb]; [| |done].
  - destruct (negb (imaging_available env)); [done|].
    destruct (logo_url TOKEN_LOGOS sym) as [url|]; [|done].
    destruct (String.eqb url ""); [done|].
    unfold render_image_kitty.
    destruct (read_base64 env _) as [img|]; [|done].
    intros _. exists img. split; [done|]. by left.
  - destruct (negb (imaging_available env)); [done|].
    destruct (logo_url TOKEN_LOGOS sym) as [url|]; [|done].
    destruct (String.eqb url ""); [done|].
    unfold render_image_iterm2.
    destruct (read_base64 env _) as [img|]; [|done].
    intros _. exists img. split; [done|]. by right.
Qed.

Lemma token_icon_cached_needs_no_download_witness :
  get_token_icon Kitty (with_download (fun _ _ => true) sample_logo_env) "USDC"
    = get_token_icon Kitty sample_logo_env "USDC" ∧
  (get_token_icon Kitty sample_logo_env "USDC" ≠ "" →
   ∃ img_data : string,
     read_base64 sample_logo_env (lower sample_logo_env "USDC" +:+ ".png")
       = Some img_data ∧
     (Kitty = Kitty ∧
      get_token_icon Kitty sample_logo_env "USDC"
        = ESC +:+ "_Ga=T,f=100,t=f;" +:+ img_data +:+ ESC +:+ "\ "
      ∨
      Kitty = Iterm2 ∧
      get_token_icon Kitty sample_logo_env "USDC"
        = ESC +:+ "]1337;File=inline=1;width=2;height=1:" +:+ img_data +:+ BEL)).
Proof.
  apply (token_icon_cached_needs_no_download Kitty sample_logo_env "USDC"
           (fun _ _ => true)).
  reflexivity.
Defined.
